(** * dgraph debuginfo: the debug collector ([cmd/debuginfo/debugging.go])

    A shallow embedding of [saveProfiles], [saveMetrics], [saveDebug],
    [fetchURL] and [statusCodeError], and the properties of the
    collector established on it.

    The collector is sequential Go code whose whole behaviour is a series
    of calls into other packages ([net/url], [net/http], [os], [io],
    [glog]).  It is embedded as a monad that threads a [World], the file
    system and the open handles, and writes the trace of those calls.
    What the network and the disk answer is a parameter of the
    development; the standard library's [net/url] is a parameter as well,
    and a model of it ([url]) is supplied for the concrete addresses.
    The network is what [client.Get] returns; a model of the client's
    transport ([transport], with [gzip] and [flate]) relates it to what
    the server sent. *)

From Stdlib Require Import ZArith String Ascii List Lia Bool SpecFloat DecimalString.
From stdpp Require Import base option gmap strings list.

Local Open Scope Z_scope.
Local Open Scope string_scope.

(** ** Go strings

    A Go [string] is a sequence of bytes: [String.string], whose
    characters are 8-bit [ascii]. *)

Module strings.

Definition byte_le (a b : ascii) : bool := (N_of_ascii a <=? N_of_ascii b)%N.

(** [lo <= c && c <= hi] *)
Definition between (lo hi c : ascii) : bool := byte_le lo c && byte_le c hi.

(** [c] is one of the bytes of [set] (a [switch] over byte constants). *)
Fixpoint one_of (set : string) (c : ascii) : bool :=
  match set with
  | EmptyString => false
  | String x set' => Ascii.eqb x c || one_of set' c
  end.

(** [s[:n]] and [s[n:]] (for [n <= len(s)]). *)
Fixpoint take (n : nat) (s : string) : string :=
  match n, s with
  | S n', String c s' => String c (take n' s')
  | _, _ => EmptyString
  end.

Fixpoint drop (n : nat) (s : string) : string :=
  match n, s with
  | S n', String _ s' => drop n' s'
  | _, _ => s
  end.

Definition HasPrefix (s prefix : string) : bool := String.prefix prefix s.

Definition HasSuffix (s suffix : string) : bool :=
  (String.length suffix <=? String.length s)%nat
  && String.eqb (drop (String.length s - String.length suffix) s) suffix.

(** [strings.Index]: the offset of the first occurrence of [sep], [None]
    for Go's [-1]. *)
Fixpoint Index (s sep : string) : option nat :=
  if String.prefix sep s then Some 0%nat
  else match s with
       | EmptyString => None
       | String _ s' => S <$> Index s' sep
       end.

(** [strings.LastIndex] *)
Fixpoint LastIndex (s sep : string) : option nat :=
  match s with
  | EmptyString => if String.prefix sep s then Some 0%nat else None
  | String _ s' =>
      match LastIndex s' sep with
      | Some i => Some (S i)
      | None => if String.prefix sep s then Some 0%nat else None
      end
  end.

Definition Contains (s substr : string) : bool :=
  match Index s substr with Some _ => true | None => false end.

(** [strings.Count] for a one-byte separator. *)
Fixpoint CountByte (s : string) (c : ascii) : nat :=
  match s with
  | EmptyString => 0%nat
  | String x s' => ((if Ascii.eqb x c then 1 else 0) + CountByte s' c)%nat
  end.

Definition lower_byte (c : ascii) : ascii :=
  if between "A" "Z" c then ascii_of_N (N_of_ascii c + 32) else c.

(** [strings.ToLower] on ASCII text. *)
Fixpoint ToLower (s : string) : string :=
  match s with
  | EmptyString => EmptyString
  | String c s' => String (lower_byte c) (ToLower s')
  end.

End strings.

(** [strconv.Itoa] / the [%d] verb. *)
Definition Itoa (z : Z) : string := NilZero.string_of_int (Z.to_int z).

(** ** The standard library's [net/url]

    [url.Parse] and [URL.String] belong to the Go standard library, not
    to this repository.  The properties of the collector below are proved
    for any parser; this model of the library (its Go 1.13 sources, the
    toolchain of the time) is what the concrete addresses are run on. *)

Module url.

Import strings.

Record Userinfo := {
  username : string;
  password : string;
  passwordSet : bool
}.

Record URL := {
  Scheme : string;
  Opaque : string;
  User : option Userinfo;
  Host : string;
  Path : string;
  RawPath : string;
  ForceQuery : bool;
  RawQuery : string;
  Fragment : string
}.

(** The errors the parser builds with [errors.New], [fmt.Errorf],
    [EscapeError] and [InvalidHostError]. *)
Inductive parse_error :=
| InvalidControlCharacter
| MissingProtocolScheme
| FirstPathSegmentColon
| InvalidUserinfo
| MissingBracketInHost
| InvalidPort (colonPort : string)
| EscapeError (s : string)
| InvalidHostError (s : string).

(** [url.Error{Op, URL, Err}] *)
Record Error := {
  Op : string;
  ErrorURL : string;
  Err : parse_error
}.

Inductive encoding :=
| encodePath | encodePathSegment | encodeHost | encodeZone
| encodeUserPassword | encodeQueryComponent | encodeFragment.

Definition is_host_mode (mode : encoding) : bool :=
  match mode with encodeHost | encodeZone => true | _ => false end.

Definition ishex (c : ascii) : bool :=
  between "0" "9" c || between "a" "f" c || between "A" "F" c.

Definition unhex (c : ascii) : N :=
  if between "0" "9" c then N_of_ascii c - 48
  else if between "a" "f" c then N_of_ascii c - 97 + 10
  else if between "A" "F" c then N_of_ascii c - 65 + 10
  else 0.

(** The byte of the double quote. *)
Definition dquote : ascii := ascii_of_N 34.

Definition isalnum (c : ascii) : bool :=
  between "a" "z" c || between "A" "Z" c || between "0" "9" c.

Definition shouldEscape (c : ascii) (mode : encoding) : bool :=
  if isalnum c then false
  else if is_host_mode mode
          && (one_of "!$&'()*+,;=:[]<>" c || Ascii.eqb c dquote) then false
  else if one_of "-_.~" c then false
  else if one_of "$&+,/:;=?@" c then
    match mode with
    | encodePath => Ascii.eqb c "?"
    | encodePathSegment => one_of "/;,?" c
    | encodeUserPassword => one_of "@/?:" c
    | encodeQueryComponent => true
    | encodeFragment => false
    | encodeHost | encodeZone => true
    end
  else if (match mode with encodeFragment => true | _ => false end)
          && one_of "!()*" c then false
  else true.

Definition hexbyte (a b : ascii) : ascii :=
  ascii_of_N (N.lor (N.shiftl (unhex a) 4) (unhex b)).

(** [unescape]: the checking pass and the decoding pass of the library,
    run together from left to right; the first malformed place decides
    the error, as in the library's first loop. *)
Fixpoint unescape (s : string) (mode : encoding) : parse_error + string :=
  match s with
  | EmptyString => inr EmptyString
  | String "%" rest =>
      match rest with
      | String a (String b rest') =>
          if negb (ishex a && ishex b) then inl (EscapeError (take 3 s))
          else if (match mode with encodeHost => true | _ => false end)
                  && (unhex a <? 8)%N && negb (String.eqb (take 3 s) "%25")
          then inl (EscapeError (take 3 s))
          else if (match mode with encodeZone => true | _ => false end)
                  && negb (String.eqb (take 3 s) "%25")
                  && negb (Ascii.eqb (hexbyte a b) " ")
                  && shouldEscape (hexbyte a b) encodeHost
          then inl (EscapeError (take 3 s))
          else match unescape rest' mode with
               | inl e => inl e
               | inr t => inr (String (hexbyte a b) t)
               end
      | _ => inl (EscapeError (take 3 s))
      end
  | String "+" rest =>
      match unescape rest mode with
      | inl e => inl e
      | inr t =>
          inr (String (match mode with
                       | encodeQueryComponent => " "
                       | _ => "+"
                       end)%char t)
      end
  | String c rest =>
      if is_host_mode mode && (N_of_ascii c <? 128)%N && shouldEscape c encodeHost
      then inl (InvalidHostError (String c EmptyString))
      else match unescape rest mode with
           | inl e => inl e
           | inr t => inr (String c t)
           end
  end.

Definition upperhex (n : N) : ascii :=
  match String.get (N.to_nat n) "0123456789ABCDEF" with
  | Some c => c
  | None => "0"%char
  end.

Fixpoint escape (s : string) (mode : encoding) : string :=
  match s with
  | EmptyString => EmptyString
  | String c rest =>
      if shouldEscape c mode then
        if Ascii.eqb c " " && (match mode with encodeQueryComponent => true | _ => false end)
        then String "+" (escape rest mode)
        else String "%" (String (upperhex (N.shiftr (N_of_ascii c) 4))
               (String (upperhex (N.land (N_of_ascii c) 15)) (escape rest mode)))
      else String c (escape rest mode)
  end.

Fixpoint stringContainsCTLByte (s : string) : bool :=
  match s with
  | EmptyString => false
  | String b rest =>
      (N_of_ascii b <? 32)%N || (N_of_ascii b =? 127)%N || stringContainsCTLByte rest
  end.

(** [getscheme]: [i] is the offset of [rest] in [rawurl]. *)
Fixpoint getscheme_at (i : nat) (rest rawurl : string)
  : parse_error + (string * string) :=
  match rest with
  | EmptyString => inr (EmptyString, rawurl)
  | String c rest' =>
      if between "a" "z" c || between "A" "Z" c then getscheme_at (S i) rest' rawurl
      else if between "0" "9" c || one_of "+-." c then
        match i with
        | O => inr (EmptyString, rawurl)
        | _ => getscheme_at (S i) rest' rawurl
        end
      else if Ascii.eqb c ":" then
        match i with
        | O => inl MissingProtocolScheme
        | _ => inr (take i rawurl, rest')
        end
      else inr (EmptyString, rawurl)
  end.

Definition getscheme (rawurl : string) : parse_error + (string * string) :=
  getscheme_at 0 rawurl rawurl.

(** [split(s, c, cutc)] *)
Definition split (s c : string) (cutc : bool) : string * string :=
  match Index s c with
  | None => (s, EmptyString)
  | Some i => (take i s, if cutc then drop (i + String.length c) s else drop i s)
  end.

Fixpoint all_digits (s : string) : bool :=
  match s with
  | EmptyString => true
  | String b rest => between "0" "9" b && all_digits rest
  end.

Definition validOptionalPort (port : string) : bool :=
  match port with
  | EmptyString => true
  | String c rest => Ascii.eqb c ":" && all_digits rest
  end.

Fixpoint validUserinfo (s : string) : bool :=
  match s with
  | EmptyString => true
  | String r rest =>
      (isalnum r || one_of "-._:~!$&'()*+,;=%@" r) && validUserinfo rest
  end.

Definition parseHost (host : string) : parse_error + string :=
  let plain := unescape host encodeHost in
  if HasPrefix host "[" then
    match LastIndex host "]" with
    | None => inl MissingBracketInHost
    | Some i =>
        let colonPort := drop (i + 1) host in
        if negb (validOptionalPort colonPort) then inl (InvalidPort colonPort)
        else match Index (take i host) "%25" with
             | Some zone =>
                 match unescape (take zone host) encodeHost with
                 | inl e => inl e
                 | inr host1 =>
                     match unescape (drop zone (take i host)) encodeZone with
                     | inl e => inl e
                     | inr host2 =>
                         match unescape (drop i host) encodeHost with
                         | inl e => inl e
                         | inr host3 => inr (host1 +:+ host2 +:+ host3)
                         end
                     end
                 end
             | None => plain
             end
    end
  else
    match LastIndex host ":" with
    | Some i =>
        let colonPort := drop i host in
        if negb (validOptionalPort colonPort) then inl (InvalidPort colonPort)
        else plain
    | None => plain
    end.

Definition parseAuthority (authority : string)
  : parse_error + (option Userinfo * string) :=
  match LastIndex authority "@" with
  | None =>
      match parseHost authority with
      | inl e => inl e
      | inr host => inr (None, host)
      end
  | Some i =>
      match parseHost (drop (i + 1) authority) with
      | inl e => inl e
      | inr host =>
          let userinfo := take i authority in
          if negb (validUserinfo userinfo) then inl InvalidUserinfo
          else if negb (Contains userinfo ":") then
            match unescape userinfo encodeUserPassword with
            | inl e => inl e
            | inr u =>
                inr (Some {| username := u; password := EmptyString;
                             passwordSet := false |}, host)
            end
          else
            let (username0, password0) := split userinfo ":" true in
            match unescape username0 encodeUserPassword with
            | inl e => inl e
            | inr u =>
                match unescape password0 encodeUserPassword with
                | inl e => inl e
                | inr p =>
                    inr (Some {| username := u; password := p;
                                 passwordSet := true |}, host)
                end
            end
      end
  end.

Definition empty : URL :=
  {| Scheme := EmptyString; Opaque := EmptyString; User := None;
     Host := EmptyString; Path := EmptyString; RawPath := EmptyString;
     ForceQuery := false; RawQuery := EmptyString; Fragment := EmptyString |}.

(** [URL.setPath] on a URL whose path is still unset. *)
Definition setPath (u : URL) (p : string) : parse_error + URL :=
  match unescape p encodePath with
  | inl e => inl e
  | inr path =>
      inr {| Scheme := Scheme u; Opaque := Opaque u; User := User u;
             Host := Host u; Path := path;
             RawPath := if String.eqb p (escape path encodePath)
                        then EmptyString else p;
             ForceQuery := ForceQuery u; RawQuery := RawQuery u;
             Fragment := Fragment u |}
  end.

(** [parse(rawurl, viaRequest)] at [viaRequest = false], the only way
    [Parse] calls it. *)
Definition parse (rawurl : string) : parse_error + URL :=
  if stringContainsCTLByte rawurl then inl InvalidControlCharacter
  else if String.eqb rawurl "*" then
    inr {| Scheme := EmptyString; Opaque := EmptyString; User := None;
           Host := EmptyString; Path := "*"; RawPath := EmptyString;
           ForceQuery := false; RawQuery := EmptyString;
           Fragment := EmptyString |}
  else
    match getscheme rawurl with
    | inl e => inl e
    | inr (scheme0, rest0) =>
        let scheme := ToLower scheme0 in
        let '(rest, force, query) :=
          if HasSuffix rest0 "?" && (CountByte rest0 "?" =? 1)%nat
          then (take (String.length rest0 - 1) rest0, true, EmptyString)
          else let (r, q) := split rest0 "?" true in (r, false, q) in
        let u0 :=
          {| Scheme := scheme; Opaque := EmptyString; User := None;
             Host := EmptyString; Path := EmptyString; RawPath := EmptyString;
             ForceQuery := force; RawQuery := query;
             Fragment := EmptyString |} in
        if negb (HasPrefix rest "/") && negb (String.eqb scheme EmptyString) then
          inr {| Scheme := scheme; Opaque := rest; User := None;
                 Host := EmptyString; Path := EmptyString;
                 RawPath := EmptyString; ForceQuery := force;
                 RawQuery := query; Fragment := EmptyString |}
        else if negb (HasPrefix rest "/")
                && (match Index rest ":", Index rest "/" with
                    | Some colon, Some slash => (colon <? slash)%nat
                    | Some _, None => true
                    | None, _ => false
                    end)
        then inl FirstPathSegmentColon
        else if (negb (String.eqb scheme EmptyString) || negb (HasPrefix rest "///"))
                && HasPrefix rest "//"
        then
          let (authority, rest') := split (drop 2 rest) "/" false in
          match parseAuthority authority with
          | inl e => inl e
          | inr (user, host) =>
              setPath {| Scheme := scheme; Opaque := EmptyString; User := user;
                         Host := host; Path := EmptyString;
                         RawPath := EmptyString; ForceQuery := force;
                         RawQuery := query; Fragment := EmptyString |} rest'
          end
        else setPath u0 rest
    end.

Definition with_Fragment (u : URL) (f : string) : URL :=
  {| Scheme := Scheme u; Opaque := Opaque u; User := User u; Host := Host u;
     Path := Path u; RawPath := RawPath u; ForceQuery := ForceQuery u;
     RawQuery := RawQuery u; Fragment := f |}.

(** [url.Parse] *)
Definition Parse (rawurl : string) : Error + URL :=
  let (u, frag) := split rawurl "#" true in
  match parse u with
  | inl e => inl {| Op := "parse"; ErrorURL := u; Err := e |}
  | inr url =>
      if String.eqb frag EmptyString then inr url
      else match unescape frag encodeFragment with
           | inl e => inl {| Op := "parse"; ErrorURL := rawurl; Err := e |}
           | inr f => inr (with_Fragment url f)
           end
  end.

Fixpoint validEncodedPath (s : string) : bool :=
  match s with
  | EmptyString => true
  | String c rest =>
      (one_of "!$&'()*+,;=:@[]%" c || negb (shouldEscape c encodePath))
      && validEncodedPath rest
  end.

Definition EscapedPath (u : URL) : string :=
  if negb (String.eqb (RawPath u) EmptyString) && validEncodedPath (RawPath u)
     && (match unescape (RawPath u) encodePath with
         | inr p => String.eqb p (Path u)
         | inl _ => false
         end)
  then RawPath u
  else if String.eqb (Path u) "*" then "*"
  else escape (Path u) encodePath.

(** [Userinfo.String] on a non-nil receiver *)
Definition Userinfo_String (ui : Userinfo) : string :=
  escape (username ui) encodeUserPassword
  +:+ (if passwordSet ui then ":" +:+ escape (password ui) encodeUserPassword
       else EmptyString).

Definition nonempty (s : string) : bool := negb (String.eqb s EmptyString).

(** [u.User != nil] *)
Definition has_user (u : URL) : bool :=
  match User u with Some _ => true | None => false end.

(** [URL.String]; [buf] is the text written so far. *)
Definition String (u : URL) : string :=
  let buf := if nonempty (Scheme u) then Scheme u +:+ ":" else EmptyString in
  let buf :=
    if nonempty (Opaque u) then buf +:+ Opaque u
    else
      let buf :=
        if nonempty (Scheme u) || nonempty (Host u) || has_user u
        then
          buf
          +:+ (if nonempty (Host u) || nonempty (Path u) || has_user u
               then "//" else EmptyString)
          +:+ (match User u with
               | Some ui => Userinfo_String ui +:+ "@"
               | None => EmptyString
               end)
          +:+ (if nonempty (Host u) then escape (Host u) encodeHost
               else EmptyString)
        else buf in
      let path := EscapedPath u in
      let buf :=
        if nonempty path && negb (HasPrefix path "/") && nonempty (Host u)
        then buf +:+ "/" else buf in
      let buf :=
        if String.eqb buf EmptyString
           && (match Index path ":" with
               | Some i => negb (Contains (take i path) "/")
               | None => false
               end)
        then buf +:+ "./" else buf in
      buf +:+ path in
  let buf :=
    if ForceQuery u || nonempty (RawQuery u) then buf +:+ "?" +:+ RawQuery u
    else buf in
  if nonempty (Fragment u) then buf +:+ "#" +:+ escape (Fragment u) encodeFragment
  else buf.

End url.

(** ** [time]

    A [time.Duration] is an [int64] count of nanoseconds: a [Z], with the
    wrap-around of the 64-bit arithmetic written out. *)

Module time.

Definition Second : Z := 1000000000.

Definition MaxInt64 : Z := 9223372036854775807.

(** The value an [int64] holds after an operation whose exact result is
    [z]. *)
Definition int64 (z : Z) : Z := (z + 2 ^ 63) mod 2 ^ 64 - 2 ^ 63.

Definition add (a b : Z) : Z := int64 (a + b).

(** Go's [/] on integers truncates toward zero. *)
Definition div (a b : Z) : Z := int64 (Z.quot a b).

(** [float64(z)] *)
Definition float64 (z : Z) : spec_float := binary_normalize 53 1024 z 0 false.

(** [Duration.Seconds]:
    [sec := d / Second; nsec := d % Second;
     return float64(sec) + float64(nsec)/1e9] *)
Definition Seconds (d : Z) : spec_float :=
  let sec := Z.quot d Second in
  let nsec := Z.rem d Second in
  SFadd 53 1024 (float64 sec) (SFdiv 53 1024 (float64 nsec) (float64 1000000000)).

(** [int(f)]: the conversion of a finite [float64] drops the fraction. *)
Definition int (f : spec_float) : Z :=
  match f with
  | S754_finite s m e =>
      let v := match e with
               | Zneg p => Z.shiftr (Zpos m) (Zpos p)
               | _ => Z.shiftl (Zpos m) e
               end in
      if s then - v else v
  | _ => 0
  end.

End time.

(** ** [net/http] responses *)

Module http.

(** An [io.ReadCloser] over a response body: the bytes the stream
    delivers and, when reading does not end in [io.EOF], the error that
    ends it. *)
Record Body := {
  data : string;
  read_err : option string
}.

Record Response := {
  Status : string;
  StatusCode : Z;
  Header : gmap string (list string);
  body : Body
}.

Definition StatusOK : Z := 200.

(** [Header.Get]: the first value stored under the key, or the empty
    string.  Both keys the collector asks for are in canonical form
    already, so the key is looked up as it is. *)
Definition Header_Get (h : gmap string (list string)) (key : string) : string :=
  match h !! key with
  | Some (v :: _) => v
  | _ => EmptyString
  end.

End http.

(** ** The transport of [net/http]: gzip, asked for and undone

    [fetchURL] builds its client as [http.Client{Timeout: timeout}]: no
    transport of its own, so the default one, whose [DisableCompression]
    is false; and [client.Get] sets no header.  For such a request the
    transport asks for [Accept-Encoding: gzip] on its own account and,
    when the answer comes back with [Content-Encoding: gzip], hands the
    client a body that decompresses what the server sent.  This is code
    of the standard library, not of this repository
    ([net/http/transport.go], [compress/gzip], [compress/flate],
    [hash/crc32]); it is modelled here from the library's sources, so
    that what the collector writes can be compared with what was sent. *)

(** *** [encoding/binary], little endian *)

Module binary.

Local Open Scope Z_scope.

Definition byte (c : ascii) : Z := Z.of_N (N_of_ascii c).

Definition chr (v : Z) : ascii := ascii_of_N (Z.to_N (v mod 256)).

(** [string([]byte{...})] *)
Definition bytes (l : list Z) : string := string_of_list_ascii (map chr l).

(** [le.Uint16(b)] and [le.Uint32(b)] on the first bytes of [b]. *)
Definition Uint16 (p : string) : Z :=
  match p with
  | String b0 (String b1 _) => Z.lor (byte b0) (Z.shiftl (byte b1) 8)
  | _ => 0
  end.

Definition Uint32 (p : string) : Z :=
  match p with
  | String b0 (String b1 (String b2 (String b3 _))) =>
      Z.lor (Z.lor (byte b0) (Z.shiftl (byte b1) 8))
            (Z.lor (Z.shiftl (byte b2) 16) (Z.shiftl (byte b3) 24))
  | _ => 0
  end.

End binary.

(** *** Reading from a stream

    The stream a decoder reads from: the bytes that are still to come and
    the error that follows the last of them, [None] for [io.EOF]. *)

Module io.

Local Open Scope Z_scope.

Definition ErrUnexpectedEOF : string := "unexpected EOF".

(** [noEOF(err)], of [compress/gzip] and [compress/flate]. *)
Definition noEOF (err : option string) : string :=
  match err with
  | None => ErrUnexpectedEOF
  | Some e => e
  end.

(** [io.ReadFull(r, buf)] for a [buf] of [n] bytes: the bytes read, what
    is left of the stream, and the error, if the stream gave less:
    [io.EOF] when it gave nothing, [io.ErrUnexpectedEOF] when it gave a
    part and then ended, the stream's own error otherwise. *)
Definition ReadFull (n : nat) (r : string) (tail : option string)
  : string * string * option (option string) :=
  let buf := strings.take n r in
  if (n <=? String.length r)%nat then (buf, strings.drop n r, None)
  else
    (buf, EmptyString,
     Some (match tail with
           | None => if (String.length r =? 0)%nat then None
                     else Some ErrUnexpectedEOF
           | Some e => Some e
           end)).

End io.

(** *** [hash/crc32] *)

Module crc32.

Local Open Scope Z_scope.

Definition IEEE : Z := 0xedb88320.

(** [^x] on a [uint32] *)
Definition not32 (x : Z) : Z := Z.lxor x 0xffffffff.

(** [simplePopulateTable]: the entry [t[i]]. *)
Fixpoint populate (j : nat) (crc : Z) : Z :=
  match j with
  | O => crc
  | S j' =>
      populate j' (if Z.testbit crc 0
                   then Z.lxor (Z.shiftr crc 1) IEEE
                   else Z.shiftr crc 1)
  end.

Definition IEEETable (i : Z) : Z := populate 8 i.

(** [simpleUpdate], between the two complements. *)
Fixpoint update (crc : Z) (p : string) : Z :=
  match p with
  | EmptyString => crc
  | String v p' =>
      update (Z.lxor (IEEETable (Z.lxor (Z.land crc 255) (binary.byte v)))
                     (Z.shiftr crc 8)) p'
  end.

Definition Update (crc : Z) (p : string) : Z := not32 (update (not32 crc) p).

Definition ChecksumIEEE (p : string) : Z := Update 0 p.

End crc32.

(** *** [compress/flate]: the decompressor *)

Module flate.

Local Open Scope Z_scope.

Definition maxNumLit : Z := 286.
Definition maxNumDist : Z := 30.
Definition endBlockMarker : nat := 256.

(** The window: [maxMatchOffset]. *)
Definition maxMatchOffset : Z := 32768.

Definition CorruptInputError (offset : Z) : string :=
  "flate: corrupt input before offset " +:+ Itoa offset.

Definition InternalError (msg : string) : string :=
  "flate: internal error: " +:+ msg.

(** **** Huffman codes

    A [huffmanDecoder].  The library keeps a table indexed by the next
    bits of the input, in which the entry of a code of [n] bits sits at
    every index whose low [n] bits are the code, first bit lowest; the
    entries are kept here as they are made, one for a code: its length,
    its bits in the order of the input, and the value it stands for.  An
    index no code covers holds 0 in the table, length 0. *)
Record huffmanDecoder := {
  min : Z;
  chunks : list (Z * Z * Z)
}.

(** [bits.Reverse16(uint16(code)) >> (16 - n)]: the low [n] bits of [code],
    in reverse. *)
Fixpoint reverse_bits (n : nat) (code acc : Z) : Z :=
  match n with
  | O => acc
  | S n' => reverse_bits n' (Z.shiftr code 1)
                         (Z.lor (Z.shiftl acc 1) (Z.land code 1))
  end.

Definition reverse (code n : Z) : Z := reverse_bits (Z.to_nat n) code 0.

(** [count[n]] *)
Definition count (lengths : list Z) (n : Z) : Z :=
  Z.of_nat (length (filter (fun x => x = n) lengths)).

(** The smallest length that is not 0, and the largest; 0 when there is
    none. *)
Definition min_length (lengths : list Z) : Z :=
  fold_left (fun m n => if n =? 0 then m
                        else if (m =? 0) || (n <? m) then n else m) lengths 0.

Definition max_length (lengths : list Z) : Z :=
  fold_left (fun m n => if m <? n then n else m) lengths 0.

(** [for i := min; i <= max; i++ { code <<= 1; nextcode[i] = code;
    code += count[i] }]: the array and the last [code]. *)
Fixpoint first_codes (k : nat) (i code : Z) (lengths : list Z)
         (nextcode : list Z) : list Z * Z :=
  match k with
  | O => (nextcode, code)
  | S k' =>
      let code := Z.shiftl code 1 in
      first_codes k' (i + 1) (code + count lengths i) lengths
                  (<[Z.to_nat i := code]> nextcode)
  end.

(** [for i, n := range lengths]: the entry of each value, codes of one
    length given out in the order of the values. *)
Fixpoint assign (i : Z) (lengths : list Z) (nextcode : list Z)
  : list (Z * Z * Z) :=
  match lengths with
  | [] => []
  | n :: lengths' =>
      if n =? 0 then assign (i + 1) lengths' nextcode
      else
        let code := default 0 (nextcode !! Z.to_nat n) in
        (n, reverse code n, i)
          :: assign (i + 1) lengths' (<[Z.to_nat n := code + 1]> nextcode)
  end.

(** [huffmanDecoder.init]: [None] for [false].  The code must be
    complete, or be the one code of one bit; no code at all is let
    through, and fails when it is used. *)
Definition init (lengths : list Z) : option huffmanDecoder :=
  let min := min_length lengths in
  let max := max_length lengths in
  if max =? 0 then Some {| min := 0; chunks := [] |}
  else
    let '(nextcode, code) :=
      first_codes (Z.to_nat (max - min + 1)) min 0 lengths (replicate 16 0) in
    if negb (code =? Z.shiftl 1 max) && negb ((code =? 1) && (max =? 1))
    then None
    else Some {| min := min; chunks := assign 0 lengths nextcode |}.

(** The entry of the table at the bits [b]: length and value. *)
Fixpoint chunk (entries : list (Z * Z * Z)) (b : Z) : Z * Z :=
  match entries with
  | [] => (0, 0)
  | (n, code, v) :: entries' =>
      if Z.land b (Z.ones n) =? code then (n, v) else chunk entries' b
  end.

(** [fixedHuffmanDecoderInit] *)
Definition fixed_lengths : list Z :=
  (replicate 144 8 ++ replicate 112 9 ++ replicate 24 7 ++ replicate 8 8)%list.

Definition fixedHuffmanDecoder : huffmanDecoder :=
  default {| min := 0; chunks := [] |} (init fixed_lengths).

Definition codeOrder : list nat :=
  [16; 17; 18; 0; 8; 7; 9; 6; 10; 5; 11; 4; 12; 3; 13; 2; 14; 1; 15]%nat.

(** **** The decompressor

    What [Read] changes of a [decompressor]: the input not read yet, the
    count of the bytes read [roffset], the bits read and not used [b], of
    which there are [nb], and the bytes written, the last one first (the
    library keeps the last 32768 of them, its window, and has handed the
    others to the reader). *)
Record decompressor := {
  r : string;
  roffset : Z;
  b : Z;
  nb : Z;
  hist : list ascii
}.

Definition D (A : Type) : Type := decompressor -> (string + A) * decompressor.

Definition ret {A} (a : A) : D A := fun f => (inr a, f).

Definition fail {A} (err : string) : D A := fun f => (inl err, f).

Definition bind {A B} (m : D A) (k : A -> D B) : D B :=
  fun f =>
    match m f with
    | (inl err, f') => (inl err, f')
    | (inr a, f') => k a f'
    end.

Declare Scope flate_scope.
Delimit Scope flate_scope with flate.
Notation "x <- m ;; k" := (bind m (fun x => k))
  (at level 100, m at next level, right associativity) : flate_scope.
Notation "m ;;; k" := (bind m (fun _ => k))
  (at level 100, right associativity) : flate_scope.
Local Open Scope flate_scope.

(** [CorruptInputError(f.roffset)] *)
Definition corrupt {A} : D A := fun f => (inl (CorruptInputError (roffset f)), f).

Section Reader.

(** The error the input ends with; [None] for [io.EOF]. *)
Variable tail : option string.

(** [moreBits] *)
Definition moreBits : D unit :=
  fun f =>
    match r f with
    | EmptyString => (inl (io.noEOF tail), f)
    | String c r' =>
        (inr tt,
         {| r := r'; roffset := roffset f + 1;
            b := Z.lor (b f) (Z.shiftl (binary.byte c) (nb f) mod 2 ^ 32);
            nb := nb f + 8; hist := hist f |})
    end.

(** [for f.nb < n { moreBits }] *)
Fixpoint need_loop (k : nat) (n : Z) : D unit :=
  fun f =>
    if nb f <? n then
      match k with
      | O => (inr tt, f)
      | S k' => (moreBits ;;; need_loop k' n) f
      end
    else (inr tt, f).

Definition need (n : Z) : D unit := need_loop (Z.to_nat n) n.

(** [f.b & (1<<n - 1)], then [f.b >>= n; f.nb -= n] *)
Definition drop_bits (n : Z) : D Z :=
  fun f =>
    (inr (Z.land (b f) (Z.ones n)),
     {| r := r f; roffset := roffset f; b := Z.shiftr (b f) n;
        nb := nb f - n; hist := hist f |}).

(** The two together, as the library writes them wherever it reads a
    field of [n] bits. *)
Definition bits (n : Z) : D Z := need n ;;; drop_bits n.

(** [huffSym]: at least [h.min] bits are read; the table then tells the
    length of the code these bits begin, and more are read while that
    length is not there. *)
Fixpoint huffSym_loop (k : nat) (h : huffmanDecoder) (n : Z) : D Z :=
  match k with
  | O => corrupt
  | S k' =>
      need n ;;;
      fun f =>
        let '(n, v) := chunk (chunks h) (b f) in
        if n <=? nb f then
          if n =? 0 then corrupt f
          else (drop_bits n ;;; ret v) f
        else huffSym_loop k' h n f
  end.

(** A code has 15 bits at most and each turn but the first reads a byte
    or returns: the fourth turn is not reached. *)
Definition huffSym (h : huffmanDecoder) : D Z := huffSym_loop 4 h (min h).

(** [f.dict.writeByte] *)
Definition writeByte (c : ascii) : D unit :=
  fun f =>
    (inr tt,
     {| r := r f; roffset := roffset f; b := b f; nb := nb f;
        hist := c :: hist f |}).

(** [f.dict.histSize()] *)
Definition histSize (f : decompressor) : Z :=
  Z.min (Z.of_nat (length (hist f))) maxMatchOffset.

(** [writeCopy(dist, length)]: [length] times the byte [dist] back. *)
Fixpoint copy (length dist : nat) (h : list ascii) : list ascii :=
  match length with
  | O => h
  | S length' =>
      copy length' dist (default Ascii.zero (h !! Nat.pred dist) :: h)
  end.

Definition writeCopy (dist length : Z) : D unit :=
  fun f =>
    (inr tt,
     {| r := r f; roffset := roffset f; b := b f; nb := nb f;
        hist := copy (Z.to_nat length) (Z.to_nat dist) (hist f) |}).

(** The length a value above 256 stands for, and the count of the extra
    bits that are added to it. *)
Definition length_code (v : Z) : option (Z * Z) :=
  if v <? 265 then Some (v - (257 - 3), 0)
  else if v <? 269 then Some (v * 2 - (265 * 2 - 11), 1)
  else if v <? 273 then Some (v * 4 - (269 * 4 - 19), 2)
  else if v <? 277 then Some (v * 8 - (273 * 8 - 35), 3)
  else if v <? 281 then Some (v * 16 - (277 * 16 - 67), 4)
  else if v <? 285 then Some (v * 32 - (281 * 32 - 131), 5)
  else if v <? maxNumLit then Some (258, 0)
  else None.

(** The distance: by a code of [hd], or, in a block of the fixed codes
    ([f.hd == nil]), by five bits, the first one highest. *)
Definition distance (hd : option huffmanDecoder) : D Z :=
  dist <- match hd with
          | None => v <- bits 5 ;; ret (reverse v 5)
          | Some hd => huffSym hd
          end ;;
  if dist <? 4 then ret (dist + 1)
  else if dist <? maxNumDist then
    let nb := Z.shiftr (dist - 2) 1 in
    let extra := Z.shiftl (Z.land dist 1) nb in
    v <- bits nb ;;
    ret (Z.shiftl 1 (nb + 1) + 1 + Z.lor extra v)
  else corrupt.

(** [huffmanBlock]: values are decoded and written until the end of the
    block.  Each turn takes at least one bit of the input, so that
    [fuel] turns, one more than the input has bits, are never used up. *)
Fixpoint huffmanBlock (fuel : nat) (hl : huffmanDecoder)
         (hd : option huffmanDecoder) : D unit :=
  match fuel with
  | O => corrupt
  | S fuel' =>
      v <- huffSym hl ;;
      if v <? 256 then
        writeByte (binary.chr v) ;;; huffmanBlock fuel' hl hd
      else if v =? 256 then ret tt
      else
        match length_code v with
        | None => corrupt
        | Some (length, n) =>
            extra <- (if 0 <? n then bits n else ret 0) ;;
            dist <- distance hd ;;
            fun f =>
              if histSize f <? dist then corrupt f
              else (writeCopy dist (length + extra) ;;;
                    huffmanBlock fuel' hl hd) f
        end
  end.

(** [dataBlock] and [copyData]: a block that is not compressed. *)
Definition dataBlock : D unit :=
  fun f =>
    let '(buf, r', err) := io.ReadFull 4 (r f) tail in
    let roffset' := roffset f + Z.of_nat (String.length buf) in
    match err with
    | Some err =>
        (inl (io.noEOF err),
         {| r := r'; roffset := roffset'; b := 0; nb := 0; hist := hist f |})
    | None =>
        let n := binary.Uint16 buf in
        let nn := binary.Uint16 (strings.drop 2 buf) in
        if negb (nn =? Z.lxor n 0xffff) then
          (inl (CorruptInputError roffset'),
           {| r := r'; roffset := roffset'; b := 0; nb := 0; hist := hist f |})
        else
          let '(data, r'', err) := io.ReadFull (Z.to_nat n) r' tail in
          let f' := {| r := r'';
                       roffset := roffset' + Z.of_nat (String.length data);
                       b := 0; nb := 0;
                       hist := (rev (list_ascii_of_string data) ++ hist f)%list |} in
          match err with
          | Some err => (inl (io.noEOF err), f')
          | None => (inr tt, f')
          end
    end.

(** One more length of [readHuffman]: the values below 16 are lengths,
    16 repeats the last one, 17 and 18 repeat 0. *)
Definition code_length (h1 : huffmanDecoder) (n : Z) (lengths : list Z)
  : D (list Z) :=
  x <- huffSym h1 ;;
  if x <? 16 then ret (lengths ++ [x])%list
  else
    rnb <- (if x =? 16 then
              match last lengths with
              | None => corrupt
              | Some l => ret (3, 2, l)
              end
            else if x =? 17 then ret (3, 3, 0)
            else if x =? 18 then ret (11, 7, 0)
            else fail (InternalError "unexpected length code")) ;;
    let '(rep, nb, l) := rnb in
    v <- bits nb ;;
    let rep := rep + v in
    if n <? Z.of_nat (length lengths) + rep then corrupt
    else ret (lengths ++ replicate (Z.to_nat rep) l)%list.

(** [for i, n := 0, nlit+ndist; i < n; ]: each turn adds a length at
    least, so that [n] turns are enough. *)
Fixpoint code_lengths (fuel : nat) (h1 : huffmanDecoder) (n : Z)
         (lengths : list Z) : D (list Z) :=
  if Z.of_nat (length lengths) <? n then
    match fuel with
    | O => corrupt
    | S fuel' =>
        lengths <- code_length h1 n lengths ;;
        code_lengths fuel' h1 n lengths
    end
  else ret lengths.

(** The [nclen] lengths of three bits, each at its place of [codeOrder];
    the places that are left hold 0. *)
Fixpoint codebits (order : list nat) (nclen : nat) (acc : list Z) : D (list Z) :=
  match nclen, order with
  | S nclen', i :: order' =>
      v <- bits 3 ;;
      codebits order' nclen' (<[i := v]> acc)
  | _, _ => ret acc
  end.

(** [readHuffman]: the two codes of a block that brings its own. *)
Definition readHuffman : D (huffmanDecoder * huffmanDecoder) :=
  need (5 + 5 + 4) ;;;
  fun f =>
    let nlit := Z.land (b f) 0x1f + 257 in
    if maxNumLit <? nlit then corrupt f
    else
      let ndist := Z.land (Z.shiftr (b f) 5) 0x1f + 1 in
      if maxNumDist <? ndist then corrupt f
      else
        (drop_bits 10 ;;;
         nclen <- drop_bits 4 ;;
         cb <- codebits codeOrder (Z.to_nat (nclen + 4)) (replicate 19 0) ;;
         match init cb with
         | None => corrupt
         | Some h1 =>
             lengths <- code_lengths (Z.to_nat (nlit + ndist)) h1 (nlit + ndist) [] ;;
             match init (take (Z.to_nat nlit) lengths),
                   init (drop (Z.to_nat nlit) lengths) with
             | Some h1, Some h2 =>
                 let eob := default 0 (lengths !! endBlockMarker) in
                 ret ({| min := if min h1 <? eob then eob else min h1;
                         chunks := chunks h1 |}, h2)
             | _, _ => corrupt
             end
         end) f.

(** [nextBlock], and the block it finds, to its end: whether it was the
    last one. *)
Definition nextBlock (fuel : nat) : D bool :=
  need (1 + 2) ;;;
  final <- drop_bits 1 ;;
  typ <- drop_bits 2 ;;
  (if typ =? 0 then dataBlock
   else if typ =? 1 then huffmanBlock fuel fixedHuffmanDecoder None
   else if typ =? 2 then
     h <- readHuffman ;;
     huffmanBlock fuel (fst h) (Some (snd h))
   else corrupt) ;;;
  ret (final =? 1).

(** The blocks up to the last one.  A block takes three bits of the
    input at least. *)
Fixpoint blocks (k fuel : nat) : D unit :=
  match k with
  | O => corrupt
  | S k' =>
      final <- nextBlock fuel ;;
      if final then ret tt else blocks k' fuel
  end.

End Reader.

(** All that a [flate.NewReader] over the stream gives: the bytes it
    delivers, among them those written before an error; what it has left
    of the stream; and the error it ends with, [None] for [io.EOF]. *)
Definition ReadAll (input : string) (tail : option string)
  : string * string * option string :=
  let fuel := S (8 * String.length input) in
  let '(res, f) :=
    blocks tail fuel fuel
           {| r := input; roffset := 0; b := 0; nb := 0; hist := [] |} in
  (string_of_list_ascii (rev (hist f)), r f,
   match res with
   | inl err => Some err
   | inr _ => None
   end).

End flate.

(** *** [compress/gzip]: the reader *)

Module gzip.

Local Open Scope Z_scope.

Definition gzipID1 : Z := 0x1f.
Definition gzipID2 : Z := 0x8b.
Definition gzipDeflate : Z := 8.
Definition flagHdrCrc : nat := 1.
Definition flagExtra : nat := 2.
Definition flagName : nat := 3.
Definition flagComment : nat := 4.

Definition ErrChecksum : string := "gzip: invalid checksum".
Definition ErrHeader : string := "gzip: invalid header".

(** A step of [readHeader]: the stream that is left and the digest, or
    the error; [Some None] is [io.EOF]. *)
Definition step : Type := option string + string * Z.

(** [readString]: the bytes up to a NUL, 512 with it at most; the digest
    covers them and the NUL.  A stream that ends before the NUL ends in
    [io.ErrUnexpectedEOF]. *)
Fixpoint readString_loop (k : nat) (r : string) (tail : option string)
         (seen : string) (digest : Z) : step :=
  match k with
  | O => inl (Some ErrHeader)
  | S k' =>
      match r with
      | EmptyString => inl tail
      | String c r' =>
          let seen := seen +:+ String c EmptyString in
          if binary.byte c =? 0 then inr (r', crc32.Update digest seen)
          else readString_loop k' r' tail seen digest
      end
  end.

Definition readString (r : string) (tail : option string) (digest : Z) : step :=
  match readString_loop 512 r tail EmptyString digest with
  | inl None => inl (Some (io.noEOF None))
  | s => s
  end.

Definition flag (flg : Z) (i : nat) : bool := Z.testbit flg (Z.of_nat i).

(** The fields of the header after the first ten bytes, each under its
    flag. *)
Definition readExtra (flg : Z) (s : step) (tail : option string) : step :=
  match s with
  | inr (r, digest) =>
      if flag flg flagExtra then
        match io.ReadFull 2 r tail with
        | (_, _, Some err) => inl (Some (io.noEOF err))
        | (len, r, None) =>
            let digest := crc32.Update digest len in
            match io.ReadFull (Z.to_nat (binary.Uint16 len)) r tail with
            | (_, _, Some err) => inl (Some (io.noEOF err))
            | (data, r, None) => inr (r, crc32.Update digest data)
            end
        end
      else s
  | inl _ => s
  end.

Definition readText (on : bool) (s : step) (tail : option string) : step :=
  match s with
  | inr (r, digest) => if on then readString r tail digest else s
  | inl _ => s
  end.

Definition readHdrCrc (flg : Z) (s : step) (tail : option string) : step :=
  match s with
  | inr (r, digest) =>
      if flag flg flagHdrCrc then
        match io.ReadFull 2 r tail with
        | (_, _, Some err) => inl (Some (io.noEOF err))
        | (buf, r, None) =>
            if binary.Uint16 buf =? digest mod 2 ^ 16 then inr (r, digest)
            else inl (Some ErrHeader)
        end
      else s
  | inl _ => s
  end.

(** [readHeader]: the stream after the header, or the error; the error
    is [io.EOF], [Some None], when the stream ends where a header would
    begin. *)
Definition readHeader (r : string) (tail : option string)
  : option string + string :=
  match io.ReadFull 10 r tail with
  | (_, _, Some err) => inl err
  | (buf, r, None) =>
      match buf with
      | String b0 (String b1 (String b2 (String b3 _))) =>
          if negb (binary.byte b0 =? gzipID1) || negb (binary.byte b1 =? gzipID2)
             || negb (binary.byte b2 =? gzipDeflate)
          then inl (Some ErrHeader)
          else
            let flg := binary.byte b3 in
            let s := inr (r, crc32.ChecksumIEEE buf) in
            let s := readExtra flg s tail in
            let s := readText (flag flg flagName) s tail in
            let s := readText (flag flg flagComment) s tail in
            match readHdrCrc flg s tail with
            | inl err => inl err
            | inr (r, _) => inr r
            end
      | _ => inl (Some ErrHeader)
      end
  end.

(** [Reader.Read], to the end, from behind a header: the member is
    decompressed, its checksum and its size are compared with the eight
    bytes that follow it, and the next header is looked for, as
    [multistream] is on.  What is returned is all that [Read] delivered
    and the error it ended with, [None] for [io.EOF].  Each member takes
    bytes of the stream, so that [k], one more than the stream has bytes,
    is never used up. *)
Fixpoint members (k : nat) (r : string) (tail : option string)
  : string * option string :=
  match k with
  | O => (EmptyString, Some (io.noEOF tail))
  | S k' =>
      match flate.ReadAll r tail with
      | (data, _, Some err) => (data, Some err)
      | (data, r, None) =>
          match io.ReadFull 8 r tail with
          | (_, _, Some err) => (data, Some (io.noEOF err))
          | (buf, r, None) =>
              let digest := binary.Uint32 buf in
              let size := binary.Uint32 (strings.drop 4 buf) in
              if negb (digest =? crc32.ChecksumIEEE data)
                 || negb (size =? Z.of_nat (String.length data) mod 2 ^ 32)
              then (data, Some ErrChecksum)
              else
                match readHeader r tail with
                | inl err => (data, err)
                | inr r =>
                    let '(more, err) := members k' r tail in
                    (data +:+ more, err)
                end
          end
      end
  end.

(** All that a [gzip.NewReader] over the stream gives to the one who
    reads it to its end; when [NewReader] fails, its error is what the
    first [Read] of the transport's [gzipReader] returns. *)
Definition ReadAll (r : string) (tail : option string) : string * option string :=
  match readHeader r tail with
  | inl err => (EmptyString, err)
  | inr r' => members (S (String.length r)) r' tail
  end.

End gzip.

(** *** [net/http/transport.go] *)

Module transport.

Local Open Scope Z_scope.

(** A response as [ReadResponse] has read it off the connection: the
    status line and the header, the body as the server sent it, and the
    length it settled for the body, -1 when the header announces none
    and 0 when there is no body. *)
Record Received := {
  response : http.Response;
  ContentLength : Z
}.

(** [rc.req.Method != "HEAD" && resp.ContentLength != 0] *)
Definition hasBody (resp : Received) : bool := negb (ContentLength resp =? 0).

(** [strings.EqualFold(s, "gzip")]: the four letters, in either case.
    No rune outside ASCII folds to one of them. *)
Definition EqualFold_gzip (s : string) : bool :=
  String.eqb (strings.ToLower s) "gzip".

(** [rc.addedGzip && strings.EqualFold(resp.Header.Get("Content-Encoding"),
    "gzip")], for a request the transport added its [Accept-Encoding] to:
    one, as the collector's, with no [Accept-Encoding] and no [Range] of
    its own, the method not [HEAD], on a transport that has compression
    on. *)
Definition gzipped (resp : Received) : bool :=
  hasBody resp
  && EqualFold_gzip (http.Header_Get (http.Header (response resp)) "Content-Encoding").

(** The body [&gzipReader{body: body}] *)
Definition gzipReader (body : http.Body) : http.Body :=
  let '(data, err) := gzip.ReadAll (http.data body) (http.read_err body) in
  {| http.data := data; http.read_err := err |}.

(** The response [readLoop] hands to the client. *)
Definition readLoop (resp : Received) : http.Response :=
  if gzipped resp then
    {| http.Status := http.Status (response resp);
       http.StatusCode := http.StatusCode (response resp);
       http.Header := delete "Content-Length"
                        (delete "Content-Encoding" (http.Header (response resp)));
       http.body := gzipReader (http.body (response resp)) |}
  else response resp.

(** [client.Get] over this transport, for what comes in over the
    connection: the client's error, or the response to the [n]-th GET of
    the run (the last one, when the client followed redirections). *)
Definition RoundTrip (wire : nat -> string -> Z -> string + Received)
           (n : nat) (source : string) (timeout : Z) : string + http.Response :=
  match wire n source timeout with
  | inl err => inl err
  | inr resp => inr (readLoop resp)
  end.

End transport.

(** ** The world of the collector *)

Inductive Severity := INFO | ERROR.

(** The operands of a [glog] format. *)
Inductive Arg :=
| AString (s : string)
| ADuration (d : Z)
| AError (e : option string)
| AParseError (e : option url.Error).

(** The calls the collector makes into other packages. *)
Inductive Call :=
| url_Parse (rawurl : string)
| http_Get (source : string) (timeout : Z)
| ioutil_ReadAll (body : nat)
| Body_Close (body : nat)
| os_Create (name : string)
| io_Copy (file : nat) (body : nat)
| glog (sev : Severity) (format : string) (args : list Arg).

Record World := {
  files : gmap string string;   (* the file system: name to content *)
  open_files : gset nat;        (* the handles [os.Create] gave out, not closed *)
  open_bodies : gset nat;       (* the response bodies not closed *)
  requests : nat;               (* GETs issued so far *)
  created : nat                 (* handles given out so far *)
}.

(** An [*os.File]. *)
Record File := {
  fd : nat;
  name : string
}.

(** A computation changes the world, makes calls, and returns. *)
Definition M (A : Type) : Type := World -> A * World * list Call.

Definition ret {A} (a : A) : M A := fun w => (a, w, []).

Definition bind {A B} (m : M A) (f : A -> M B) : M B :=
  fun w =>
    let '(a, w1, t1) := m w in
    let '(b, w2, t2) := f a w1 in
    (b, w2, (t1 ++ t2)%list).

Definition call (c : Call) : M unit := fun w => (tt, w, [c]).

Declare Scope go_scope.
Delimit Scope go_scope with go.
Notation "x <- m ;; k" := (bind m (fun x => k))
  (at level 100, m at next level, right associativity) : go_scope.
Notation "m ;;; k" := (bind m (fun _ => k))
  (at level 100, right associativity) : go_scope.
Local Open Scope go_scope.

Definition result {A} (m : M A) (w : World) : A := fst (fst (m w)).
Definition final {A} (m : M A) (w : World) : World := snd (fst (m w)).
Definition trace {A} (m : M A) (w : World) : list Call := snd (m w).

(** [for _, x := range l { body }] *)
Fixpoint for_range {A} (l : list A) (body : A -> M unit) : M unit :=
  match l with
  | [] => ret tt
  | x :: l' => body x ;;; for_range l' body
  end.

(** What a trace holds of each kind of call. *)
Definition parses (t : list Call) : list string :=
  omap (fun c => match c with url_Parse s => Some s | _ => None end) t.

Definition gets (t : list Call) : list (string * Z) :=
  omap (fun c => match c with http_Get s d => Some (s, d) | _ => None end) t.

Definition creates (t : list Call) : list string :=
  omap (fun c => match c with os_Create f => Some f | _ => None end) t.

Definition copies (t : list Call) : list (nat * nat) :=
  omap (fun c => match c with io_Copy f b => Some (f, b) | _ => None end) t.

(** The line the turn of an endpoint ends with: the error of its
    fetch-and-save, logged with the source, or the note that the endpoint
    was saved, logged with its name. *)
Definition verdicts (t : list Call) : list (Severity * string) :=
  omap (fun c => match c with
                 | glog ERROR _ [AString source; AError _] => Some (ERROR, source)
                 | glog INFO _ [AString endpoint; AString _] => Some (INFO, endpoint)
                 | _ => None
                 end) t.

Definition with_files (w : World) (fs : gmap string string) : World :=
  {| files := fs; open_files := open_files w; open_bodies := open_bodies w;
     requests := requests w; created := created w |}.

Definition with_open_files (w : World) (s : gset nat) : World :=
  {| files := files w; open_files := s; open_bodies := open_bodies w;
     requests := requests w; created := created w |}.

Definition with_open_bodies (w : World) (s : gset nat) : World :=
  {| files := files w; open_files := open_files w; open_bodies := s;
     requests := requests w; created := created w |}.

Definition with_requests (w : World) (n : nat) : World :=
  {| files := files w; open_files := open_files w; open_bodies := open_bodies w;
     requests := n; created := created w |}.

Definition with_created (w : World) (n : nat) : World :=
  {| files := files w; open_files := open_files w; open_bodies := open_bodies w;
     requests := requests w; created := n |}.

Definition empty_world : World :=
  {| files := ∅; open_files := ∅; open_bodies := ∅; requests := 0; created := 0 |}.

(** ** The collector *)

(** The endpoints the package knows, lines 32 to 46. *)
Definition pprofProfileTypes : list string :=
  ["goroutine"; "heap"; "threadcreate"; "block"; "mutex"; "profile"; "trace"].

Definition metricTypes : list string :=
  ["jemalloc"; "state"; "health"].

Section Collector.

(** [net/url]: the parser and the printer of the standard library. *)
Variable Parse : string -> url.Error + url.URL.
Variable URLString : url.URL -> string.

(** The network: what the [n]-th GET of the run, for [source] under
    [timeout], comes back with: the client's error, or a response. *)
Variable net : nat -> string -> Z -> string + http.Response.

(** The disk: the error [os.Create] fails with on a name, if it does;
    and, for a name, how many bytes can be written to it before writing
    fails, and with which error. *)
Variable create_err : string -> option string.
Variable write_fault : string -> option (nat * string).

(** *** The library calls, as computations *)

Definition url_dot_Parse (rawurl : string) : M (url.Error + url.URL) :=
  call (url_Parse rawurl) ;;; ret (Parse rawurl).

(** [client.Get] for a client with [Timeout: timeout].  A response comes
    with an open body, named by the number of the request. *)
Definition client_Get (source : string) (timeout : Z)
  : M (string + nat * http.Response) :=
  fun w =>
    let n := requests w in
    match net n source timeout with
    | inl e => (inl e, with_requests w (S n), [http_Get source timeout])
    | inr resp =>
        (inr (n, resp),
         with_open_bodies (with_requests w (S n)) ({[n]} ∪ open_bodies w),
         [http_Get source timeout])
    end.

(** [ioutil.ReadAll(resp.Body)] *)
Definition ReadAll (b : nat) (resp : http.Response) : M (string * option string) :=
  call (ioutil_ReadAll b) ;;;
  ret (http.data (http.body resp), http.read_err (http.body resp)).

(** [Body.Close] *)
Definition Close (b : nat) : M unit :=
  fun w => (tt, with_open_bodies w (open_bodies w ∖ {[b]}), [Body_Close b]).

(** [os.Create]: the file is created or truncated and opened. *)
Definition Create (filePath : string) : M (string + File) :=
  fun w =>
    match create_err filePath with
    | Some e => (inl e, w, [os_Create filePath])
    | None =>
        let h := created w in
        (inr {| fd := h; name := filePath |},
         with_open_files
           (with_created (with_files w (<[filePath := EmptyString]> (files w))) (S h))
           ({[h]} ∪ open_files w),
         [os_Create filePath])
    end.

(** [io.Copy(out, resp)]: the bytes of the body are appended to the file
    until the body ends or fails, or the disk fails. *)
Definition Copy (out : File) (b : nat) (resp : http.Response) : M (option string) :=
  fun w =>
    let bytes := http.data (http.body resp) in
    let old := default EmptyString (files w !! name out) in
    match write_fault (name out) with
    | Some (n, e) =>
        if (n <? String.length bytes)%nat then
          (Some e,
           with_files w (<[name out := old +:+ strings.take n bytes]> (files w)),
           [io_Copy (fd out) b])
        else
          (http.read_err (http.body resp),
           with_files w (<[name out := old +:+ bytes]> (files w)),
           [io_Copy (fd out) b])
    | None =>
        (http.read_err (http.body resp),
         with_files w (<[name out := old +:+ bytes]> (files w)),
         [io_Copy (fd out) b])
    end.

(** *** [statusCodeError] *)

Definition statusCodeError (b : nat) (resp : http.Response) : M string :=
  if negb (String.eqb (http.Header_Get (http.Header resp) "X-Go-Pprof") EmptyString)
     && strings.Contains (http.Header_Get (http.Header resp) "Content-Type") "text/plain"
  then
    r <- ReadAll b resp ;;
    match r with
    | (body, None) =>
        ret ("server response: " +:+ http.Status resp +:+ " - " +:+ body)
    | (_, Some _) => ret ("server response: " +:+ http.Status resp)
    end
  else ret ("server response: " +:+ http.Status resp).

(** *** [fetchURL] *)

Definition fetchURL (source : string) (timeout : Z)
  : M (string + nat * http.Response) :=
  r <- client_Get source timeout ;;
  match r with
  | inl err => ret (inl ("http fetch: " +:+ err))
  | inr (b, resp) =>
      if negb (Z.eqb (http.StatusCode resp) http.StatusOK) then
        (* defer resp.Body.Close() *)
        e <- statusCodeError b resp ;;
        Close b ;;;
        ret (inl e)
      else ret (inr (b, resp))
  end.

(** *** [saveDebug] *)

(** [timeout := duration + duration/2 + 2*time.Second] *)
Definition saveDebug_timeout (duration : Z) : Z :=
  time.add (time.add duration (time.div duration 2)) (2 * time.Second).

Definition saveDebug (sourceURL filePath : string) (duration : Z)
  : M (option string) :=
  call (glog INFO "fetching information over HTTP from %s" [AString sourceURL]) ;;;
  (if Z.ltb 0 duration
   then call (glog INFO "please wait... (%v)" [ADuration duration])
   else ret tt) ;;;
  let timeout := saveDebug_timeout duration in
  r <- fetchURL sourceURL timeout ;;
  match r with
  | inl err => ret (Some err)
  | inr (b, resp) =>
      (* defer resp.Close() *)
      e <- (out <- Create filePath ;;
            match out with
            | inl err => ret (Some ("error while creating dump file: " +:+ err))
            | inr out => Copy out b resp
            end) ;;
      Close b ;;;
      ret e
  end.

(** *** [saveProfiles] *)

(** The test of line 50:
    [err != nil || (u.Host == "" && u.Scheme != "" && u.Scheme != "file")] *)
Definition saveProfiles_again (r : url.Error + url.URL) : bool :=
  match r with
  | inl _ => true
  | inr u =>
      String.eqb (url.Host u) EmptyString
      && negb (String.eqb (url.Scheme u) EmptyString)
      && negb (String.eqb (url.Scheme u) "file")
  end.

(** The body of the loop, lines 59 to 68, for the base URL [u]. *)
Definition saveProfiles_each (u : url.URL) (pathPrefix : string) (duration : Z)
           (profileType : string) : M unit :=
  let source := URLString u +:+ "/debug/pprof/" +:+ profileType
                +:+ "?duration=" +:+ Itoa (time.int (time.Seconds duration)) in
  let savePath := pathPrefix +:+ profileType +:+ ".gz" in
  err <- saveDebug source savePath duration ;;
  match err with
  | Some e =>
      call (glog ERROR "error while saving pprof profile from %s: %s"
              [AString source; AError (Some e)])
  | None =>
      call (glog INFO "saving %s profile in %s"
              [AString profileType; AString savePath])
  end.

Definition saveProfiles (addr pathPrefix : string) (duration : Z)
           (profiles : list string) : M unit :=
  r <- url_dot_Parse addr ;;
  r <- (if saveProfiles_again r then url_dot_Parse ("http://" +:+ addr) else ret r) ;;
  match r with
  | inl err =>
      call (glog ERROR "error while parsing address %s: %s"
              [AString addr; AParseError (Some err)])
  | inr u =>
      if String.eqb (url.Host u) EmptyString then
        call (glog ERROR "error while parsing address %s: %s"
                [AString addr; AParseError None])
      else for_range profiles (saveProfiles_each u pathPrefix duration)
  end.

(** *** [saveMetrics] *)

(** The test of line 74. *)
Definition saveMetrics_again (r : url.Error + url.URL) : bool :=
  match r with
  | inl _ => true
  | inr u =>
      String.eqb (url.Host u) EmptyString
      && negb (String.eqb (url.Scheme u) EmptyString)
      && negb (String.eqb (url.Scheme u) "file")
  end.

(** The body of the loop, lines 83 to 92, for the base URL [u]. *)
Definition saveMetrics_each (u : url.URL) (pathPrefix : string) (duration : Z)
           (metricType : string) : M unit :=
  let source := URLString u +:+ "/" +:+ metricType in
  let savePath := pathPrefix +:+ metricType +:+ ".gz" in
  err <- saveDebug source savePath duration ;;
  match err with
  | Some e =>
      call (glog ERROR "error while saving metric from %s: %s"
              [AString source; AError (Some e)])
  | None =>
      call (glog INFO "saving %s metric in %s"
              [AString metricType; AString savePath])
  end.

Definition saveMetrics (addr pathPrefix : string) (duration : Z)
           (metrics : list string) : M unit :=
  r <- url_dot_Parse addr ;;
  r <- (if saveMetrics_again r then url_dot_Parse ("http://" +:+ addr) else ret r) ;;
  match r with
  | inl err =>
      call (glog ERROR "error while parsing address %s: %s"
              [AString addr; AParseError (Some err)])
  | inr u =>
      if String.eqb (url.Host u) EmptyString then
        call (glog ERROR "error while parsing address %s: %s"
                [AString addr; AParseError None])
      else for_range metrics (saveMetrics_each u pathPrefix duration)
  end.

(** *** The address, resolved

    The two functions resolve the address by the same lines, each with
    its own copy.  What the copies compute, without the calls: *)

(** The [err] of a pair [(u, err)]. *)
Definition logged_err (r : url.Error + url.URL) : option url.Error :=
  match r with inl e => Some e | inr _ => None end.

(** [(u, err)] after line 52 of [saveProfiles]. *)
Definition saveProfiles_parsed (addr : string) : url.Error + url.URL :=
  let r := Parse addr in
  if saveProfiles_again r then Parse ("http://" +:+ addr) else r.

(** The base URL [saveProfiles] enters its loop with; [None] when it
    returns at line 55. *)
Definition saveProfiles_base (addr : string) : option url.URL :=
  match saveProfiles_parsed addr with
  | inl _ => None
  | inr u => if String.eqb (url.Host u) EmptyString then None else Some u
  end.

(** [(u, err)] after line 76 of [saveMetrics]. *)
Definition saveMetrics_parsed (addr : string) : url.Error + url.URL :=
  let r := Parse addr in
  if saveMetrics_again r then Parse ("http://" +:+ addr) else r.

(** The base URL [saveMetrics] enters its loop with; [None] when it
    returns at line 79. *)
Definition saveMetrics_base (addr : string) : option url.URL :=
  match saveMetrics_parsed addr with
  | inl _ => None
  | inr u => if String.eqb (url.Host u) EmptyString then None else Some u
  end.

End Collector.

(** ** A network and a disk to run the collector on *)

Module mock.

Definition plain (code : Z) (status body : string) : http.Response :=
  {| http.Status := status; http.StatusCode := code; http.Header := ∅;
     http.body := {| http.data := body; http.read_err := None |} |}.

(** A pprof handler's failure: the marker header, a plain-text type. *)
Definition pprof_failure (code : Z) (status body : string) : http.Response :=
  {| http.Status := status; http.StatusCode := code;
     http.Header :=
       list_to_map [("X-Go-Pprof", ["1"]);
                    ("Content-Type", ["text/plain; charset=utf-8"])];
     http.body := {| http.data := body; http.read_err := None |} |}.

(** A server that answers by the name of the endpoint. *)
Definition server (n : nat) (source : string) (timeout : Z)
  : string + http.Response :=
  if strings.Contains source "goroutine"
  then inr (pprof_failure 500 "500 Internal Server Error" "out of memory")
  else if strings.Contains source "block" then inr (plain 204 "204 No Content" "")
  else if strings.Contains source "mutex" then inr (plain 404 "404 Not Found" "no such profile")
  else if strings.Contains source "trace" then inl "context deadline exceeded"
  else if strings.Contains source "heap" then inr (plain 200 "200 OK" "heap-profile-bytes")
  else inr (plain 200 "200 OK" "ok").

(** A disk that takes everything. *)
Definition disk (name : string) : option string := None.
Definition sound (name : string) : option (nat * string) := None.

(** The URL [http://host]. *)
Definition base (host : string) : url.URL :=
  {| url.Scheme := "http"; url.Opaque := ""; url.User := None;
     url.Host := host; url.Path := ""; url.RawPath := "";
     url.ForceQuery := false; url.RawQuery := ""; url.Fragment := "" |}.

Definition saveProfiles := saveProfiles url.Parse url.String server disk sound.
Definition saveMetrics := saveMetrics url.Parse url.String server disk sound.
Definition saveDebug := saveDebug server disk sound.

(** A body that breaks off: the bytes that came, then the error. *)
Definition cut_off (n : nat) (source : string) (timeout : Z)
  : string + http.Response :=
  inr {| http.Status := "200 OK"; http.StatusCode := 200; http.Header := ∅;
         http.body := {| http.data := "heap-pro";
                         http.read_err := Some "unexpected EOF" |} |}.

(** A disk on which nothing can be created. *)
Definition read_only (name : string) : option string := Some "permission denied".

(** A disk that is full after four more bytes. *)
Definition full (name : string) : option (nat * string) :=
  Some (4%nat, "no space left on device").

(** What [server] answers, as it comes in over the connection. *)
Definition wire (n : nat) (source : string) (timeout : Z)
  : string + transport.Received :=
  match server n source timeout with
  | inl err => inl err
  | inr resp =>
      inr {| transport.response := resp;
             transport.ContentLength :=
               Z.of_nat (String.length (http.data (http.body resp))) |}
  end.

(** The 18 bytes [heap-profile-bytes], compressed: the 38 bytes
    [gzip -9n] makes of them. *)
Definition compressed : string :=
  binary.bytes [31; 139; 8; 0; 0; 0; 0; 0; 2; 3;
                203; 72; 77; 44; 208; 45; 40; 202; 79; 203; 204; 73; 213; 77;
                170; 44; 73; 45; 6; 0;
                254; 234; 242; 244; 18; 0; 0; 0].

(** A server that compresses what it answers, as the client's transport
    has asked it to. *)
Definition compressing (n : nat) (source : string) (timeout : Z)
  : string + transport.Received :=
  inr {| transport.response :=
           {| http.Status := "200 OK"; http.StatusCode := 200;
              http.Header :=
                list_to_map [("Content-Encoding", ["gzip"]);
                             ("Content-Length", ["38"]);
                             ("Content-Type", ["application/octet-stream"])];
              http.body := {| http.data := compressed; http.read_err := None |} |};
         transport.ContentLength := 38 |}.

End mock.

(** ** Addresses of the form [name:port] *)

Module address.

Fixpoint all_bytes (ok : ascii -> bool) (s : string) : bool :=
  match s with
  | EmptyString => true
  | String c s' => ok c && all_bytes ok s'
  end.

Definition letter (c : ascii) : bool :=
  strings.between "a" "z" c || strings.between "A" "Z" c.

Definition digit (c : ascii) : bool := strings.between "0" "9" c.

(** A byte of a host name: a letter, a digit, [-] or [.]. *)
Definition name_byte (c : ascii) : bool :=
  letter c || digit c || strings.one_of "-." c.

(** A host name or an address in dotted digits: bytes of host names, at
    least one. *)
Definition host_name (h : string) : bool :=
  match h with
  | EmptyString => false
  | String _ _ => all_bytes name_byte h
  end.

(** A port: digits, or nothing. *)
Definition port (p : string) : bool := all_bytes digit p.

(** A byte of [name:port]. *)
Definition addr_byte (c : ascii) : bool := name_byte c || Ascii.eqb c ":".

End address.

(** * Properties *)

(** ** Computations in sequence *)

Lemma trace_bind {A B} (m : M A) (f : A -> M B) (w : World) :
  trace (bind m f) w = (trace m w ++ trace (f (result m w)) (final m w))%list.
Proof.
  unfold trace, result, final, bind.
  destruct (m w) as [[a w1] t1]; simpl.
  destruct (f a w1) as [[b w2] t2]; reflexivity.
Qed.

Lemma final_bind {A B} (m : M A) (f : A -> M B) (w : World) :
  final (bind m f) w = final (f (result m w)) (final m w).
Proof.
  unfold result, final, bind.
  destruct (m w) as [[a w1] t1]; simpl.
  destruct (f a w1) as [[b w2] t2]; reflexivity.
Qed.

Lemma result_bind {A B} (m : M A) (f : A -> M B) (w : World) :
  result (bind m f) w = result (f (result m w)) (final m w).
Proof.
  unfold result, final, bind.
  destruct (m w) as [[a w1] t1]; simpl.
  destruct (f a w1) as [[b w2] t2]; reflexivity.
Qed.

Lemma trace_for_range_cons {A} (x : A) (l : list A) (body : A -> M unit) (w : World) :
  trace (for_range (x :: l) body) w
  = (trace (body x) w ++ trace (for_range l body) (final (body x) w))%list.
Proof. simpl. rewrite trace_bind. reflexivity. Qed.

Lemma final_for_range_cons {A} (x : A) (l : list A) (body : A -> M unit) (w : World) :
  final (for_range (x :: l) body) w = final (for_range l body) (final (body x) w).
Proof. simpl. rewrite final_bind. reflexivity. Qed.

(** A loop whose every turn leaves exactly one call of some kind leaves
    one such call for each element, in the order of the list. *)
Lemma for_range_each {A B} (pick : Call -> option B) (R : B -> A -> Prop)
      (body : A -> M unit) :
  (forall x w, exists o, omap pick (trace (body x) w) = [o] /\ R o x) ->
  forall l w, Forall2 R (omap pick (trace (for_range l body) w)) l.
Proof.
  intros Hbody l; induction l as [|x l IH]; intros w.
  - constructor.
  - rewrite trace_for_range_cons, omap_app.
    destruct (Hbody x w) as (o & -> & Ho).
    constructor; [exact Ho | apply IH].
Qed.

Lemma for_range_map {A B} (pick : Call -> option B) (g : A -> B)
      (body : A -> M unit) :
  (forall x w, omap pick (trace (body x) w) = [g x]) ->
  forall l w, omap pick (trace (for_range l body) w) = map g l.
Proof.
  intros Hbody l; induction l as [|x l IH]; intros w.
  - reflexivity.
  - rewrite trace_for_range_cons, omap_app, Hbody, IH. reflexivity.
Qed.

(** The loop over a list in two parts is the loop over the first part,
    then the loop over the second from the world the first one left. *)
Lemma trace_for_range_app {A} (l1 l2 : list A) (body : A -> M unit) (w : World) :
  trace (for_range (l1 ++ l2)%list body) w
  = (trace (for_range l1 body) w
     ++ trace (for_range l2 body) (final (for_range l1 body) w))%list.
Proof.
  revert w; induction l1 as [|x l1 IH]; intros w.
  - reflexivity.
  - change ((x :: l1) ++ l2)%list with (x :: (l1 ++ l2))%list.
    rewrite !trace_for_range_cons, IH, final_for_range_cons, app_assoc.
    reflexivity.
Qed.

(** ** Running the embedded code *)

Ltac unfold_go :=
  unfold saveDebug, fetchURL, statusCodeError, ReadAll, Copy, Create, Close,
    client_Get, url_dot_Parse, trace, result, final, bind, call, ret in *.

(** Case analysis on the innermost thing a [match] or an [if] looks at. *)
Ltac split_match :=
  match goal with
  | |- context [match ?x with _ => _ end] =>
      lazymatch x with
      | context [match _ with _ => _ end] => fail
      | _ => destruct x eqn:?
      end
  end.

Ltac run_go := unfold_go; repeat (simpl in *; try split_match).

(** Membership in the sets of open handles. *)
Ltac sets :=
  rewrite ?elem_of_difference, ?elem_of_union, ?elem_of_singleton in *;
  intuition congruence.

Lemma append_nil_r (s : string) : s +:+ "" = s.
Proof.
  induction s as [|c s IH]; [reflexivity |].
  change (String c s +:+ "") with (String c (s +:+ "")). now rewrite IH.
Qed.

Lemma append_id_inv (s t : string) : s +:+ t = s -> t = "".
Proof.
  intros H. apply (String.app_inj s).
  rewrite H. symmetry. apply append_nil_r.
Qed.

Lemma int64_small (z : Z) : (- 2 ^ 63 <= z < 2 ^ 63)%Z -> time.int64 z = z.
Proof.
  intros H. unfold time.int64. rewrite Z.mod_small by lia. lia.
Qed.

Lemma saveDebug_timeout_exact (d : Z) :
  (0 <= d)%Z ->
  (d + d / 2 + 2 * time.Second <= time.MaxInt64)%Z ->
  saveDebug_timeout d = (d + d / 2 + 2 * time.Second)%Z.
Proof.
  unfold saveDebug_timeout, time.add, time.div, time.MaxInt64, time.Second.
  intros Hd Hmax.
  rewrite Z.quot_div_nonneg by lia.
  assert (0 <= d / 2)%Z by (apply Z.div_pos; lia).
  rewrite (int64_small (d / 2)) by lia.
  rewrite (int64_small (d + d / 2)) by lia.
  apply int64_small; lia.
Qed.

Section Fetch.

Variable net : nat -> string -> Z -> string + http.Response.
Variable create_err : string -> option string.
Variable write_fault : string -> option (nat * string).

Local Abbreviation saveDebug := (saveDebug net create_err write_fault).
Local Abbreviation fetchURL := (fetchURL net).

(** *** The calls of one fetch-and-save *)

Lemma saveDebug_gets (source filePath : string) (duration : Z) (w : World) :
  gets (trace (saveDebug source filePath duration) w)
  = [(source, saveDebug_timeout duration)].
Proof. run_go; reflexivity. Qed.

Lemma saveDebug_parses (source filePath : string) (duration : Z) (w : World) :
  parses (trace (saveDebug source filePath duration) w) = [].
Proof. run_go; reflexivity. Qed.

(** What [statusCodeError] returns does not depend on the world. *)
Lemma statusCodeError_result (b b' : nat) (resp : http.Response) (w w' : World) :
  result (statusCodeError b resp) w = result (statusCodeError b' resp) w'.
Proof. run_go; reflexivity. Qed.

Lemma statusCodeError_final (b : nat) (resp : http.Response) (w : World) :
  final (statusCodeError b resp) w = w.
Proof. run_go; reflexivity. Qed.

Lemma fetchURL_not_OK (source : string) (timeout : Z) (w : World)
      (resp : http.Response) :
  net (requests w) source timeout = inr resp ->
  http.StatusCode resp <> http.StatusOK ->
  result (fetchURL source timeout) w
  = inl (result (statusCodeError (requests w) resp) w).
Proof.
  intros Hnet Hcode. apply Z.eqb_neq in Hcode.
  unfold_go. rewrite Hnet; simpl. rewrite Hcode; simpl.
  repeat (simpl; try split_match); reflexivity.
Qed.

Lemma fetchURL_OK (source : string) (timeout : Z) (w : World)
      (resp : http.Response) :
  net (requests w) source timeout = inr resp ->
  http.StatusCode resp = http.StatusOK ->
  result (fetchURL source timeout) w = inr (requests w, resp).
Proof.
  intros Hnet Hcode. apply Z.eqb_eq in Hcode.
  unfold_go. rewrite Hnet; simpl. rewrite Hcode; reflexivity.
Qed.

Lemma saveDebug_not_OK (source filePath : string) (duration : Z) (w : World)
      (resp : http.Response) :
  net (requests w) source (saveDebug_timeout duration) = inr resp ->
  http.StatusCode resp <> http.StatusOK ->
  result (saveDebug source filePath duration) w
  = Some (result (statusCodeError (requests w) resp) w)
  /\ creates (trace (saveDebug source filePath duration) w) = []
  /\ copies (trace (saveDebug source filePath duration) w) = []
  /\ files (final (saveDebug source filePath duration) w) = files w
  /\ open_files (final (saveDebug source filePath duration) w) = open_files w.
Proof.
  intros Hnet Hcode. apply Z.eqb_neq in Hcode.
  unfold_go. destruct (0 <? duration)%Z; simpl;
    rewrite Hnet; simpl; rewrite Hcode; simpl;
    repeat (simpl; try split_match); auto.
Qed.


Lemma statusCodeError_message (b : nat) (resp : http.Response) (w : World) :
  result (statusCodeError b resp) w
  = if negb (String.eqb (http.Header_Get (http.Header resp) "X-Go-Pprof") "")
       && strings.Contains (http.Header_Get (http.Header resp) "Content-Type")
                           "text/plain"
    then match http.read_err (http.body resp) with
         | None => "server response: " +:+ http.Status resp +:+ " - "
                   +:+ http.data (http.body resp)
         | Some _ => "server response: " +:+ http.Status resp
         end
    else "server response: " +:+ http.Status resp.
Proof. run_go; reflexivity. Qed.

(** *** The handles of one fetch-and-save *)

(** The response body is closed on every path: no body that was not
    open before the call is open after it. *)
Lemma saveDebug_closes_body (source filePath : string) (duration : Z)
      (w : World) (b : nat) :
  b ∈ open_bodies (final (saveDebug source filePath duration) w) ->
  b ∈ open_bodies w.
Proof.
  run_go; sets.
Qed.

(** The body a GET came back with is closed when [saveDebug] returns. *)
Lemma saveDebug_closes_its_body (source filePath : string) (duration : Z)
      (w : World) (resp : http.Response) :
  net (requests w) source (saveDebug_timeout duration) = inr resp ->
  requests w ∉ open_bodies (final (saveDebug source filePath duration) w).
Proof.
  intros Hnet. unfold_go. destruct (0 <? duration)%Z; simpl;
    rewrite Hnet; simpl; repeat (simpl; try split_match); sets.
Qed.

(** C4. [saveDebug] releases the response body, not the file: when the
    fetch succeeds and [os.Create] opens the file, the handle it gave
    out is still open when [saveDebug] returns, whatever [io.Copy] did;
    no call closes it. *)
Theorem saveDebug_leaves_file_open (source filePath : string) (duration : Z)
        (w : World) (resp : http.Response) :
  net (requests w) source (saveDebug_timeout duration) = inr resp ->
  http.StatusCode resp = http.StatusOK ->
  create_err filePath = None ->
  (created w ∈ open_files (final (saveDebug source filePath duration) w))
  /\ (requests w ∉ open_bodies (final (saveDebug source filePath duration) w))
  /\ copies (trace (saveDebug source filePath duration) w)
     = [(created w, requests w)].
Proof.
  intros Hnet Hcode Hcreate. apply Z.eqb_eq in Hcode.
  unfold_go. destruct (0 <? duration)%Z; simpl;
    rewrite Hnet; simpl; rewrite Hcode; simpl; rewrite Hcreate; simpl;
    repeat (simpl; try split_match);
    (split; [sets | split; [sets | reflexivity]]).
Qed.

(** C5, as the code has it. The status error is reported exactly for the
    responses whose status code is not 200: such a response makes
    [fetchURL], and with it [saveDebug], return the error of
    [statusCodeError], and [saveDebug] then neither creates nor writes a
    file; a response with status code 200 is handed on with its body. *)
Theorem status_error_unless_200 (source filePath : string) (duration : Z)
        (w : World) (resp : http.Response) :
  net (requests w) source (saveDebug_timeout duration) = inr resp ->
  (http.StatusCode resp <> 200%Z ->
     result (fetchURL source (saveDebug_timeout duration)) w
     = inl (result (statusCodeError (requests w) resp) w)
     /\ result (saveDebug source filePath duration) w
        = Some (result (statusCodeError (requests w) resp) w)
     /\ creates (trace (saveDebug source filePath duration) w) = []
     /\ copies (trace (saveDebug source filePath duration) w) = []
     /\ files (final (saveDebug source filePath duration) w) = files w)
  /\ (http.StatusCode resp = 200%Z ->
        result (fetchURL source (saveDebug_timeout duration)) w
        = inr (requests w, resp)).
Proof.
  intros Hnet; split; intros Hcode.
  - split; [now apply fetchURL_not_OK |].
    destruct (saveDebug_not_OK source filePath duration w resp Hnet Hcode)
      as (Hres & Hcre & Hcop & Hfiles & _).
    auto.
  - now apply fetchURL_OK.
Qed.

(** C7, as the code has it. For a duration [d >= 0] whose [d + d/2 + 2s]
    does not exceed the largest [int64], the GET of [saveDebug] is
    issued under the timeout [d + d/2 + 2s], the division being the
    integer division of the nanosecond count; for 10 seconds that is
    17 seconds. *)
Theorem saveDebug_timeout_in_range (source filePath : string) (d : Z)
        (w : World) :
  (0 <= d)%Z ->
  (d + d / 2 + 2 * time.Second <= time.MaxInt64)%Z ->
  gets (trace (saveDebug source filePath d) w)
  = [(source, (d + d / 2 + 2 * time.Second)%Z)]
  /\ saveDebug_timeout (10 * time.Second) = (17 * time.Second)%Z.
Proof.
  intros Hd Hmax. split; [| reflexivity].
  rewrite saveDebug_gets, saveDebug_timeout_exact by assumption.
  reflexivity.
Qed.

(** When [saveDebug] succeeds, the destination file holds exactly the
    bytes of the body of the response the GET came back with: the status
    was 200, the body was read to its end, and the content of the file
    is that byte string, unchanged. *)
Lemma saveDebug_writes_body_verbatim (source filePath : string)
        (duration : Z) (w : World) :
  result (saveDebug source filePath duration) w = None ->
  exists resp,
    net (requests w) source (saveDebug_timeout duration) = inr resp
    /\ http.StatusCode resp = http.StatusOK
    /\ http.read_err (http.body resp) = None
    /\ files (final (saveDebug source filePath duration) w) !! filePath
       = Some (http.data (http.body resp)).
Proof.
  unfold_go.
  destruct (0 <? duration)%Z; simpl;
    (destruct (net (requests w) source (saveDebug_timeout duration))
       as [e | resp] eqn:Hnet; simpl; [discriminate |]);
    (destruct (http.StatusCode resp =? http.StatusOK)%Z eqn:Hcode; simpl;
     [| repeat (simpl; try split_match); discriminate]);
    apply Z.eqb_eq in Hcode;
    (destruct (create_err filePath) eqn:Hcreate; simpl; [discriminate |]);
    rewrite lookup_insert_eq; simpl;
    repeat (simpl; try split_match); simpl; intros Hres;
    try discriminate;
    exists resp; rewrite lookup_insert_eq; auto.
Qed.

(** C9. For a response whose status code is not 200, the error carries
    the body exactly when the response has a value under [X-Go-Pprof],
    a content type that mentions [text/plain], and a body that can be
    read to its end; then the message is the status line, [" - "] and
    the whole body, and in every other case the status line alone. *)
Theorem status_error_message (source : string) (timeout : Z) (w : World)
        (resp : http.Response) :
  net (requests w) source timeout = inr resp ->
  http.StatusCode resp <> http.StatusOK ->
  let marked :=
    http.Header_Get (http.Header resp) "X-Go-Pprof" <> ""
    /\ strings.Contains (http.Header_Get (http.Header resp) "Content-Type")
                        "text/plain" = true
    /\ http.read_err (http.body resp) = None in
  let with_body :=
    "server response: " +:+ http.Status resp +:+ " - "
    +:+ http.data (http.body resp) in
  let status_only := "server response: " +:+ http.Status resp in
  (marked -> result (fetchURL source timeout) w = inl with_body)
  /\ (~ marked -> result (fetchURL source timeout) w = inl status_only)
  /\ (result (fetchURL source timeout) w = inl with_body <-> marked).
Proof.
  intros Hnet Hcode marked with_body status_only.
  rewrite (fetchURL_not_OK source timeout w resp Hnet Hcode).
  rewrite statusCodeError_message.
  assert (Hdiff : status_only <> with_body).
  { unfold status_only, with_body. intros Heq. symmetry in Heq.
    apply (String.app_inj "server response: ") in Heq.
    apply append_id_inv in Heq. discriminate. }
  subst marked; fold status_only; fold with_body.
  destruct (String.eqb_spec (http.Header_Get (http.Header resp) "X-Go-Pprof") "")
    as [Hx | Hx];
    destruct (strings.Contains _ "text/plain") eqn:Hct;
    destruct (http.read_err (http.body resp)) eqn:Hread; simpl;
    (split; [intros (M1 & M2 & M3) | split; [intros M | split; [intros E | intros (M1 & M2 & M3)]]]);
    first [ reflexivity
          | congruence
          | exfalso; apply M; repeat split; congruence
          | repeat split; congruence ].
Qed.

End Fetch.

(** ** What is written, and what the server sent *)

Section Sent.

Variable wire : nat -> string -> Z -> string + transport.Received.
Variable create_err : string -> option string.
Variable write_fault : string -> option (nat * string).

Local Abbreviation saveDebug :=
  (saveDebug (transport.RoundTrip wire) create_err write_fault).

(** C8, as the code has it. When [saveDebug] succeeds, the status was
    200 and the destination file holds, byte for byte, the body of the
    response as the client hands it over, read to its end; the collector
    changes nothing of it.  These are the bytes the server sent when the
    answer has no body or no [Content-Encoding: gzip]; when it has both,
    the transport of the client has read the bytes sent as a gzip stream
    to its end, and the file holds what the stream decompresses to. *)
Theorem saveDebug_writes_body_as_delivered (source filePath : string)
        (duration : Z) (w : World) :
  result (saveDebug source filePath duration) w = None ->
  exists resp,
    let sent := http.body (transport.response resp) in
    let written := files (final (saveDebug source filePath duration) w) !! filePath in
    wire (requests w) source (saveDebug_timeout duration) = inr resp
    /\ http.StatusCode (transport.response resp) = http.StatusOK
    /\ http.read_err (http.body (transport.readLoop resp)) = None
    /\ written = Some (http.data (http.body (transport.readLoop resp)))
    /\ (transport.gzipped resp = false ->
        http.read_err sent = None /\ written = Some (http.data sent))
    /\ (transport.gzipped resp = true ->
        snd (gzip.ReadAll (http.data sent) (http.read_err sent)) = None
        /\ written
           = Some (fst (gzip.ReadAll (http.data sent) (http.read_err sent)))).
Proof.
  intros Hres.
  destruct (saveDebug_writes_body_verbatim _ _ _ _ _ _ _ Hres)
    as (resp' & Hnet & Hcode & Hread & Hfile).
  unfold transport.RoundTrip in Hnet.
  destruct (wire (requests w) source (saveDebug_timeout duration))
    as [err | resp]; [discriminate |].
  injection Hnet as <-.
  exists resp. cbv zeta.
  split; [reflexivity |].
  split; [revert Hcode; unfold transport.readLoop;
          destruct (transport.gzipped resp); exact (fun H => H) |].
  split; [exact Hread |]. split; [exact Hfile |].
  revert Hread Hfile. unfold transport.readLoop, transport.gzipReader.
  destruct (transport.gzipped resp); simpl.
  - destruct (gzip.ReadAll _ _) as [data err]; simpl.
    intros Hread Hfile. split; [discriminate | auto].
  - intros Hread Hfile. split; [auto | discriminate].
Qed.

End Sent.

(** ** The batch operations *)

Lemma for_range_nil {A B} (pick : Call -> option B) (body : A -> M unit) :
  (forall x w, omap pick (trace (body x) w) = []) ->
  forall l w, omap pick (trace (for_range l body) w) = [].
Proof.
  intros Hbody l; induction l as [|x l IH]; intros w.
  - reflexivity.
  - rewrite trace_for_range_cons, omap_app, Hbody, IH. reflexivity.
Qed.

Lemma parses_app (t1 t2 : list Call) :
  parses (t1 ++ t2)%list = (parses t1 ++ parses t2)%list.
Proof. apply omap_app. Qed.

Lemma gets_app (t1 t2 : list Call) :
  gets (t1 ++ t2)%list = (gets t1 ++ gets t2)%list.
Proof. apply omap_app. Qed.


Lemma verdicts_app (t1 t2 : list Call) :
  verdicts (t1 ++ t2)%list = (verdicts t1 ++ verdicts t2)%list.
Proof. apply omap_app. Qed.

(** The test of lines 50 and 74, as a proposition. *)
Lemma saveProfiles_again_iff (r : url.Error + url.URL) :
  saveProfiles_again r = true
  <-> (exists e, r = inl e)
      \/ (exists u, r = inr u /\ url.Host u = ""
                    /\ url.Scheme u <> "" /\ url.Scheme u <> "file").
Proof.
  destruct r as [e | u]; simpl.
  - split; [intros _; left; eauto | reflexivity].
  - rewrite !andb_true_iff, !negb_true_iff, String.eqb_eq, !String.eqb_neq.
    split.
    + intros [[H1 H2] H3]; right; eauto.
    + intros [(e & [=]) | (u' & [= <-] & H)]; tauto.
Qed.

Ltac unfold_each := unfold saveProfiles_each, saveMetrics_each in *.

Ltac unfold_batch :=
  unfold saveProfiles, saveMetrics, saveProfiles_each, saveMetrics_each,
    saveProfiles_base, saveMetrics_base, saveProfiles_parsed,
    saveMetrics_parsed, url_dot_Parse, trace, result, final, bind, call, ret
    in *.

Section Batch.

Variable Parse : string -> url.Error + url.URL.
Variable URLString : url.URL -> string.
Variable net : nat -> string -> Z -> string + http.Response.
Variable create_err : string -> option string.
Variable write_fault : string -> option (nat * string).

Local Abbreviation saveDebug := (saveDebug net create_err write_fault).
Local Abbreviation saveProfiles_each :=
  (saveProfiles_each URLString net create_err write_fault).
Local Abbreviation saveMetrics_each :=
  (saveMetrics_each URLString net create_err write_fault).
Local Abbreviation saveProfiles :=
  (saveProfiles Parse URLString net create_err write_fault).
Local Abbreviation saveMetrics :=
  (saveMetrics Parse URLString net create_err write_fault).
Local Abbreviation saveProfiles_parsed := (saveProfiles_parsed Parse).
Local Abbreviation saveMetrics_parsed := (saveMetrics_parsed Parse).
Local Abbreviation saveProfiles_base := (saveProfiles_base Parse).
Local Abbreviation saveMetrics_base := (saveMetrics_base Parse).

(** The source of the profile [name] under the base [u], and of the
    metric [name]. *)
Local Abbreviation profile_source u d name :=
  (URLString u +:+ "/debug/pprof/" +:+ name +:+ "?duration="
   +:+ Itoa (time.int (time.Seconds d))).
Local Abbreviation metric_source u name := (URLString u +:+ "/" +:+ name).

(** *** The shape of a batch: the parses, then the loop or the abort *)

Lemma saveProfiles_trace (addr pathPrefix : string) (duration : Z)
      (profiles : list string) (w : World) :
  trace (saveProfiles addr pathPrefix duration profiles) w
  = (map url_Parse (if saveProfiles_again (Parse addr)
                    then [addr; "http://" +:+ addr] else [addr])
     ++ match saveProfiles_base addr with
        | Some u => trace (for_range profiles (saveProfiles_each u pathPrefix duration)) w
        | None => [glog ERROR "error while parsing address %s: %s"
                     [AString addr; AParseError (logged_err (saveProfiles_parsed addr))]]
        end)%list.
Proof.
  unfold_batch.
  destruct (saveProfiles_again (Parse addr)); simpl.
  - destruct (Parse ("http://" +:+ addr)) as [e | u]; simpl; [reflexivity |].
    destruct (String.eqb (url.Host u) ""); simpl; [reflexivity |].
    destruct (for_range _ _ w) as [[? ?] ?]; reflexivity.
  - destruct (Parse addr) as [e | u]; simpl; [reflexivity |].
    destruct (String.eqb (url.Host u) ""); simpl; [reflexivity |].
    destruct (for_range _ _ w) as [[? ?] ?]; reflexivity.
Qed.

Lemma saveProfiles_final (addr pathPrefix : string) (duration : Z)
      (profiles : list string) (w : World) :
  final (saveProfiles addr pathPrefix duration profiles) w
  = match saveProfiles_base addr with
    | Some u => final (for_range profiles (saveProfiles_each u pathPrefix duration)) w
    | None => w
    end.
Proof.
  unfold_batch.
  destruct (saveProfiles_again (Parse addr)); simpl.
  - destruct (Parse ("http://" +:+ addr)) as [e | u]; simpl; [reflexivity |].
    destruct (String.eqb (url.Host u) ""); simpl; [reflexivity |].
    destruct (for_range _ _ w) as [[? ?] ?]; reflexivity.
  - destruct (Parse addr) as [e | u]; simpl; [reflexivity |].
    destruct (String.eqb (url.Host u) ""); simpl; [reflexivity |].
    destruct (for_range _ _ w) as [[? ?] ?]; reflexivity.
Qed.

Lemma saveMetrics_trace (addr pathPrefix : string) (duration : Z)
      (metrics : list string) (w : World) :
  trace (saveMetrics addr pathPrefix duration metrics) w
  = (map url_Parse (if saveMetrics_again (Parse addr)
                    then [addr; "http://" +:+ addr] else [addr])
     ++ match saveMetrics_base addr with
        | Some u => trace (for_range metrics (saveMetrics_each u pathPrefix duration)) w
        | None => [glog ERROR "error while parsing address %s: %s"
                     [AString addr; AParseError (logged_err (saveMetrics_parsed addr))]]
        end)%list.
Proof.
  unfold_batch.
  destruct (saveMetrics_again (Parse addr)); simpl.
  - destruct (Parse ("http://" +:+ addr)) as [e | u]; simpl; [reflexivity |].
    destruct (String.eqb (url.Host u) ""); simpl; [reflexivity |].
    destruct (for_range _ _ w) as [[? ?] ?]; reflexivity.
  - destruct (Parse addr) as [e | u]; simpl; [reflexivity |].
    destruct (String.eqb (url.Host u) ""); simpl; [reflexivity |].
    destruct (for_range _ _ w) as [[? ?] ?]; reflexivity.
Qed.

Lemma saveMetrics_final (addr pathPrefix : string) (duration : Z)
      (metrics : list string) (w : World) :
  final (saveMetrics addr pathPrefix duration metrics) w
  = match saveMetrics_base addr with
    | Some u => final (for_range metrics (saveMetrics_each u pathPrefix duration)) w
    | None => w
    end.
Proof.
  unfold_batch.
  destruct (saveMetrics_again (Parse addr)); simpl.
  - destruct (Parse ("http://" +:+ addr)) as [e | u]; simpl; [reflexivity |].
    destruct (String.eqb (url.Host u) ""); simpl; [reflexivity |].
    destruct (for_range _ _ w) as [[? ?] ?]; reflexivity.
  - destruct (Parse addr) as [e | u]; simpl; [reflexivity |].
    destruct (String.eqb (url.Host u) ""); simpl; [reflexivity |].
    destruct (for_range _ _ w) as [[? ?] ?]; reflexivity.
Qed.

(** *** One turn of the loop *)

Lemma saveProfiles_each_gets (u : url.URL) (pathPrefix : string) (duration : Z)
      (name : string) (w : World) :
  gets (trace (saveProfiles_each u pathPrefix duration name) w)
  = [(profile_source u duration name, saveDebug_timeout duration)].
Proof.
  unfold_each. rewrite trace_bind, gets_app, saveDebug_gets.
  destruct (result _ _); reflexivity.
Qed.

Lemma saveMetrics_each_gets (u : url.URL) (pathPrefix : string) (duration : Z)
      (name : string) (w : World) :
  gets (trace (saveMetrics_each u pathPrefix duration name) w)
  = [(metric_source u name, saveDebug_timeout duration)].
Proof.
  unfold_each. rewrite trace_bind, gets_app, saveDebug_gets.
  destruct (result _ _); reflexivity.
Qed.

Lemma saveProfiles_each_parses (u : url.URL) (pathPrefix : string)
      (duration : Z) (name : string) (w : World) :
  parses (trace (saveProfiles_each u pathPrefix duration name) w) = [].
Proof.
  unfold_each. rewrite trace_bind, parses_app, saveDebug_parses.
  destruct (result _ _); reflexivity.
Qed.

Lemma saveMetrics_each_parses (u : url.URL) (pathPrefix : string)
      (duration : Z) (name : string) (w : World) :
  parses (trace (saveMetrics_each u pathPrefix duration name) w) = [].
Proof.
  unfold_each. rewrite trace_bind, parses_app, saveDebug_parses.
  destruct (result _ _); reflexivity.
Qed.

Lemma saveDebug_verdicts (source filePath : string) (duration : Z) (w : World) :
  verdicts (trace (saveDebug source filePath duration) w) = [].
Proof. run_go; reflexivity. Qed.

(** A turn ends in exactly one verdict: the error, or the note. *)
Lemma saveProfiles_each_verdict (u : url.URL) (pathPrefix : string)
      (duration : Z) (name : string) (w : World) :
  exists v,
    verdicts (trace (saveProfiles_each u pathPrefix duration name) w) = [v]
    /\ (v = (ERROR, profile_source u duration name) \/ v = (INFO, name)).
Proof.
  unfold_each. rewrite trace_bind, verdicts_app, saveDebug_verdicts.
  destruct (result _ _); simpl; eauto.
Qed.

Lemma saveMetrics_each_verdict (u : url.URL) (pathPrefix : string)
      (duration : Z) (name : string) (w : World) :
  exists v,
    verdicts (trace (saveMetrics_each u pathPrefix duration name) w) = [v]
    /\ (v = (ERROR, metric_source u name) \/ v = (INFO, name)).
Proof.
  unfold_each. rewrite trace_bind, verdicts_app, saveDebug_verdicts.
  destruct (result _ _); simpl; eauto.
Qed.

(** When the fetch-and-save of an endpoint fails, its error is logged
    and the loop goes on with the endpoints that remain, from the world
    the failed attempt left. *)
Lemma saveProfiles_loop_after_failure (u : url.URL) (pathPrefix : string)
      (duration : Z) (name : string) (rest : list string) (w : World)
      (e : string) :
  let source := profile_source u duration name in
  let savePath := pathPrefix +:+ name +:+ ".gz" in
  result (saveDebug source savePath duration) w = Some e ->
  trace (for_range (name :: rest) (saveProfiles_each u pathPrefix duration)) w
  = (trace (saveDebug source savePath duration) w
     ++ glog ERROR "error while saving pprof profile from %s: %s"
          [AString source; AError (Some e)]
     :: trace (for_range rest (saveProfiles_each u pathPrefix duration))
          (final (saveDebug source savePath duration) w))%list.
Proof.
  intros source savePath Hres.
  rewrite trace_for_range_cons. unfold_each.
  rewrite trace_bind, final_bind. fold source savePath. rewrite Hres.
  rewrite <- app_assoc. reflexivity.
Qed.

Lemma saveMetrics_loop_after_failure (u : url.URL) (pathPrefix : string)
      (duration : Z) (name : string) (rest : list string) (w : World)
      (e : string) :
  let source := metric_source u name in
  let savePath := pathPrefix +:+ name +:+ ".gz" in
  result (saveDebug source savePath duration) w = Some e ->
  trace (for_range (name :: rest) (saveMetrics_each u pathPrefix duration)) w
  = (trace (saveDebug source savePath duration) w
     ++ glog ERROR "error while saving metric from %s: %s"
          [AString source; AError (Some e)]
     :: trace (for_range rest (saveMetrics_each u pathPrefix duration))
          (final (saveDebug source savePath duration) w))%list.
Proof.
  intros source savePath Hres.
  rewrite trace_for_range_cons. unfold_each.
  rewrite trace_bind, final_bind. fold source savePath. rewrite Hres.
  rewrite <- app_assoc. reflexivity.
Qed.

(** *** The calls of a batch *)

Lemma parses_map_url_Parse (l : list string) : parses (map url_Parse l) = l.
Proof. induction l as [|x l IH]; [reflexivity | simpl; now rewrite IH]. Qed.

Lemma gets_map_url_Parse (l : list string) : gets (map url_Parse l) = [].
Proof. induction l as [|x l IH]; [reflexivity | exact IH]. Qed.

Lemma verdicts_map_url_Parse (l : list string) : verdicts (map url_Parse l) = [].
Proof. induction l as [|x l IH]; [reflexivity | exact IH]. Qed.

Lemma saveProfiles_parses (addr pathPrefix : string) (duration : Z)
      (profiles : list string) (w : World) :
  parses (trace (saveProfiles addr pathPrefix duration profiles) w)
  = if saveProfiles_again (Parse addr) then [addr; "http://" +:+ addr] else [addr].
Proof.
  rewrite saveProfiles_trace, parses_app, parses_map_url_Parse.
  destruct (saveProfiles_base addr) as [u |].
  - unfold parses at 1.
    rewrite (for_range_nil _ _ (saveProfiles_each_parses u pathPrefix duration)).
    apply app_nil_r.
  - apply app_nil_r.
Qed.

Lemma saveMetrics_parses (addr pathPrefix : string) (duration : Z)
      (metrics : list string) (w : World) :
  parses (trace (saveMetrics addr pathPrefix duration metrics) w)
  = if saveMetrics_again (Parse addr) then [addr; "http://" +:+ addr] else [addr].
Proof.
  rewrite saveMetrics_trace, parses_app, parses_map_url_Parse.
  destruct (saveMetrics_base addr) as [u |].
  - unfold parses at 1.
    rewrite (for_range_nil _ _ (saveMetrics_each_parses u pathPrefix duration)).
    apply app_nil_r.
  - apply app_nil_r.
Qed.

Lemma saveProfiles_gets (addr pathPrefix : string) (duration : Z)
      (profiles : list string) (w : World) :
  gets (trace (saveProfiles addr pathPrefix duration profiles) w)
  = match saveProfiles_base addr with
    | Some u =>
        map (fun name => (profile_source u duration name, saveDebug_timeout duration))
            profiles
    | None => []
    end.
Proof.
  rewrite saveProfiles_trace, gets_app, gets_map_url_Parse.
  destruct (saveProfiles_base addr) as [u |]; [| reflexivity].
  apply (for_range_map _ _ _ (saveProfiles_each_gets u pathPrefix duration)).
Qed.

Lemma saveMetrics_gets (addr pathPrefix : string) (duration : Z)
      (metrics : list string) (w : World) :
  gets (trace (saveMetrics addr pathPrefix duration metrics) w)
  = match saveMetrics_base addr with
    | Some u =>
        map (fun name => (metric_source u name, saveDebug_timeout duration)) metrics
    | None => []
    end.
Proof.
  rewrite saveMetrics_trace, gets_app, gets_map_url_Parse.
  destruct (saveMetrics_base addr) as [u |]; [| reflexivity].
  apply (for_range_map _ _ _ (saveMetrics_each_gets u pathPrefix duration)).
Qed.

(** *** The claims on the batch operations *)

(** C2. Once the address has given a base URL, every endpoint of the
    list is attempted, once and in the order of the list, whatever
    became of the endpoints before it: the sources fetched are those of
    the whole list, and each endpoint ends in its own verdict, the
    logged error of its fetch-and-save or the note that it was saved.
    The batch returns nothing but control. *)
Theorem batch_attempts_every_endpoint (addr pathPrefix : string) (duration : Z)
        (names : list string) (w : World) (u : url.URL) :
  saveProfiles_base addr = Some u ->
  (map fst (gets (trace (saveProfiles addr pathPrefix duration names) w))
   = map (fun name => profile_source u duration name) names
   /\ Forall2 (fun v name => v = (ERROR, profile_source u duration name)
                            \/ v = (INFO, name))
        (verdicts (trace (saveProfiles addr pathPrefix duration names) w)) names
   /\ result (saveProfiles addr pathPrefix duration names) w = tt)
  /\ (map fst (gets (trace (saveMetrics addr pathPrefix duration names) w))
      = map (fun name => metric_source u name) names
      /\ Forall2 (fun v name => v = (ERROR, metric_source u name)
                               \/ v = (INFO, name))
           (verdicts (trace (saveMetrics addr pathPrefix duration names) w)) names
      /\ result (saveMetrics addr pathPrefix duration names) w = tt).
Proof.
  intros Hbase.
  assert (Hbase' : saveMetrics_base addr = Some u) by exact Hbase.
  split; (split; [| split]).
  - rewrite saveProfiles_gets, Hbase, map_map. reflexivity.
  - rewrite saveProfiles_trace, Hbase, verdicts_app, verdicts_map_url_Parse.
    apply (for_range_each _ _ _ (saveProfiles_each_verdict u pathPrefix duration)).
  - now destruct (result _ _).
  - rewrite saveMetrics_gets, Hbase', map_map. reflexivity.
  - rewrite saveMetrics_trace, Hbase', verdicts_app, verdicts_map_url_Parse.
    apply (for_range_each _ _ _ (saveMetrics_each_verdict u pathPrefix duration)).
  - now destruct (result _ _).
Qed.

(** C3. When the address does not parse even with [http://] before it,
    or what it resolves to has no host, either batch returns without a
    GET, without creating or writing a file, and leaves the world as it
    found it: the whole list is skipped. *)
Theorem unusable_address_skips_the_list (addr pathPrefix : string)
        (duration : Z) (names : list string) (w : World) :
  (exists e, saveProfiles_parsed addr = inl e)
  \/ (exists u, saveProfiles_parsed addr = inr u /\ url.Host u = "") ->
  (gets (trace (saveProfiles addr pathPrefix duration names) w) = []
   /\ creates (trace (saveProfiles addr pathPrefix duration names) w) = []
   /\ copies (trace (saveProfiles addr pathPrefix duration names) w) = []
   /\ final (saveProfiles addr pathPrefix duration names) w = w)
  /\ (gets (trace (saveMetrics addr pathPrefix duration names) w) = []
      /\ creates (trace (saveMetrics addr pathPrefix duration names) w) = []
      /\ copies (trace (saveMetrics addr pathPrefix duration names) w) = []
      /\ final (saveMetrics addr pathPrefix duration names) w = w).
Proof.
  intros Hparsed.
  assert (Hbase : saveProfiles_base addr = None).
  { unfold_batch.
    destruct Hparsed as [(e & ->) | (u & -> & Hhost)]; [reflexivity |].
    rewrite Hhost. reflexivity. }
  assert (Hbase' : saveMetrics_base addr = None) by exact Hbase.
  split.
  - rewrite saveProfiles_trace, saveProfiles_final, Hbase.
    destruct (saveProfiles_again (Parse addr)); repeat split; reflexivity.
  - rewrite saveMetrics_trace, saveMetrics_final, Hbase'.
    destruct (saveMetrics_again (Parse addr)); repeat split; reflexivity.
Qed.


(** C10. The two batches resolve an address alike: they make the same
    calls to the parser, they give up on the same addresses, with the
    same calls, and when they go on they go on from the same base URL. *)
Theorem same_address_resolution (addr : string) (prefixP prefixM : string)
        (durationP durationM : Z) (profiles metrics : list string)
        (wP wM : World) :
  let tP := trace (saveProfiles addr prefixP durationP profiles) wP in
  let tM := trace (saveMetrics addr prefixM durationM metrics) wM in
  parses tP = parses tM
  /\ exists base : option url.URL,
       saveProfiles_base addr = base
       /\ saveMetrics_base addr = base
       /\ match base with
          | None =>
              tP = tM /\ gets tP = []
              /\ final (saveProfiles addr prefixP durationP profiles) wP = wP
              /\ final (saveMetrics addr prefixM durationM metrics) wM = wM
          | Some u =>
              map fst (gets tP) = map (fun name => profile_source u durationP name) profiles
              /\ map fst (gets tM) = map (fun name => metric_source u name) metrics
          end.
Proof.
  intros tP tM. subst tP tM. split.
  - rewrite saveProfiles_parses, saveMetrics_parses. reflexivity.
  - exists (saveProfiles_base addr). split; [reflexivity |]. split; [reflexivity |].
    rewrite saveProfiles_gets, saveMetrics_gets.
    rewrite saveProfiles_trace, saveMetrics_trace.
    rewrite saveProfiles_final, saveMetrics_final.
    change (saveMetrics_base addr) with (saveProfiles_base addr).
    destruct (saveProfiles_base addr) as [u |].
    + rewrite !map_map. split; reflexivity.
    + repeat split; reflexivity.
Qed.

End Batch.

(** ** The fallback to [http://] *)

(** C1, as the code has it. Either batch parses the address a second
    time, with [http://] before it, exactly when the first parse fails or
    gives a URL with no host and a scheme that is neither empty nor
    [file]; otherwise the address is parsed once.  So [localhost:8080],
    which parses to the scheme [localhost] without a host, is parsed
    again and resolves to the base [http://localhost:8080]. *)
Theorem retry_with_http_prefix :
  (forall (Parse : string -> url.Error + url.URL) (URLString : url.URL -> string)
          (net : nat -> string -> Z -> string + http.Response)
          (create_err : string -> option string)
          (write_fault : string -> option (nat * string))
          (addr pathPrefix : string) (duration : Z) (names : list string)
          (w : World),
      let again :=
        (exists e, Parse addr = inl e)
        \/ (exists u, Parse addr = inr u /\ url.Host u = ""
                      /\ url.Scheme u <> "" /\ url.Scheme u <> "file") in
      let tP := trace (saveProfiles Parse URLString net create_err write_fault
                         addr pathPrefix duration names) w in
      let tM := trace (saveMetrics Parse URLString net create_err write_fault
                         addr pathPrefix duration names) w in
      (again -> parses tP = [addr; "http://" +:+ addr]
                /\ parses tM = [addr; "http://" +:+ addr])
      /\ (~ again -> parses tP = [addr] /\ parses tM = [addr]))
  /\ parses (trace (mock.saveProfiles "localhost:8080" "/tmp/dbg-" 0 []) empty_world)
     = ["localhost:8080"; "http://localhost:8080"]
  /\ url.String <$> saveProfiles_base url.Parse "localhost:8080"
     = Some "http://localhost:8080".
Proof.
  split; [| split; reflexivity].
  intros Parse URLString net create_err write_fault addr pathPrefix duration
         names w again tP tM.
  subst tP tM. rewrite saveProfiles_parses, saveMetrics_parses.
  change (saveMetrics_again (Parse addr)) with (saveProfiles_again (Parse addr)).
  pose proof (saveProfiles_again_iff (Parse addr)) as Hiff. fold again in Hiff.
  destruct (saveProfiles_again (Parse addr)).
  - split; [auto |]. intros Hn. destruct Hn. now apply Hiff.
  - split; [| auto]. intros Ha. apply Hiff in Ha. discriminate.
Qed.

(** The address [localhost] parses to a URL with neither scheme nor host,
    and is not parsed again: the batch gives up on it without a GET. *)
Lemma bare_host_name_is_not_retried :
  exists u,
    url.Parse "localhost" = inr u
    /\ url.Host u = ""
    /\ (url.Scheme u = "" \/ url.Scheme u <> "file")
    /\ parses (trace (mock.saveProfiles "localhost" "/tmp/dbg-" (5 * time.Second)
                        ["heap"]) empty_world)
       = ["localhost"]
    /\ gets (trace (mock.saveProfiles "localhost" "/tmp/dbg-" (5 * time.Second)
                      ["heap"]) empty_world)
       = [].
Proof.
  eexists. split; [reflexivity |]. repeat split; auto.
Qed.

(** ** Witnesses and counterexamples *)

Lemma batch_attempts_every_endpoint_witness :
  saveProfiles_base url.Parse "localhost:8080" = Some (mock.base "localhost:8080")
  /\ verdicts (trace (mock.saveProfiles "localhost:8080" "/tmp/dbg-" (5 * time.Second)
                        ["heap"; "goroutine"; "threadcreate"]) empty_world)
     = [(INFO, "heap");
        (ERROR, "http://localhost:8080/debug/pprof/goroutine?duration=5");
        (INFO, "threadcreate")]
  /\ map fst (gets (trace (mock.saveProfiles "localhost:8080" "/tmp/dbg-"
                             (5 * time.Second)
                             ["heap"; "goroutine"; "threadcreate"]) empty_world))
     = ["http://localhost:8080/debug/pprof/heap?duration=5";
        "http://localhost:8080/debug/pprof/goroutine?duration=5";
        "http://localhost:8080/debug/pprof/threadcreate?duration=5"].
Proof.
  split; [reflexivity |]. split; [reflexivity |].
  exact (proj1 (proj1 (batch_attempts_every_endpoint
                         url.Parse url.String mock.server mock.disk mock.sound
                         "localhost:8080" "/tmp/dbg-" (5 * time.Second)
                         ["heap"; "goroutine"; "threadcreate"] empty_world
                         (mock.base "localhost:8080") eq_refl))).
Defined.

Lemma unusable_address_skips_the_list_witness :
  saveProfiles_parsed url.Parse "" = inr url.empty
  /\ url.Host url.empty = ""
  /\ gets (trace (mock.saveProfiles "" "/tmp/dbg-" (5 * time.Second) ["heap"; "trace"])
             empty_world) = []
  /\ creates (trace (mock.saveMetrics "" "/tmp/dbg-" (5 * time.Second) ["health"])
                empty_world) = [].
Proof.
  split; [reflexivity |]. split; [reflexivity |].
  pose proof (unusable_address_skips_the_list
                url.Parse url.String mock.server mock.disk mock.sound
                "" "/tmp/dbg-" (5 * time.Second)) as H.
  split.
  - exact (proj1 (proj1 (H ["heap"; "trace"] empty_world
                           (or_intror (ex_intro _ url.empty (conj eq_refl eq_refl)))))).
  - exact (proj1 (proj2 (proj2 (H ["health"] empty_world
                           (or_intror (ex_intro _ url.empty (conj eq_refl eq_refl))))))).
Defined.

Lemma saveDebug_leaves_file_open_witness :
  let source := "http://localhost:8080/debug/pprof/heap?duration=5" in
  let resp := mock.plain 200 "200 OK" "heap-profile-bytes" in
  mock.server 0 source (saveDebug_timeout (5 * time.Second)) = inr resp
  /\ http.StatusCode resp = http.StatusOK
  /\ mock.disk "/tmp/dbg-heap.gz" = None
  /\ (0%nat ∈ open_files (final (mock.saveDebug source "/tmp/dbg-heap.gz"
                                   (5 * time.Second)) empty_world)).
Proof.
  intros source resp.
  split; [reflexivity |]. split; [reflexivity |]. split; [reflexivity |].
  exact (proj1 (saveDebug_leaves_file_open
                  mock.server mock.disk mock.sound source "/tmp/dbg-heap.gz"
                  (5 * time.Second) empty_world resp eq_refl eq_refl eq_refl)).
Defined.

Lemma status_error_unless_200_witness :
  let source := "http://localhost:8080/debug/pprof/mutex?duration=5" in
  let resp := mock.plain 404 "404 Not Found" "no such profile" in
  mock.server 0 source (saveDebug_timeout (5 * time.Second)) = inr resp
  /\ http.StatusCode resp <> 200%Z
  /\ result (mock.saveDebug source "/tmp/dbg-mutex.gz" (5 * time.Second)) empty_world
     = Some "server response: 404 Not Found"
  /\ creates (trace (mock.saveDebug source "/tmp/dbg-mutex.gz" (5 * time.Second))
                empty_world) = [].
Proof.
  intros source resp.
  assert (Hcode : http.StatusCode resp <> 200%Z) by discriminate.
  split; [reflexivity |]. split; [exact Hcode |].
  pose proof (proj1 (status_error_unless_200
                       mock.server mock.disk mock.sound source "/tmp/dbg-mutex.gz"
                       (5 * time.Second) empty_world resp eq_refl) Hcode)
    as (_ & Hres & Hcre & _).
  split; [exact Hres | exact Hcre].
Defined.

(** A response [204 No Content], a success status of the 2xx class, is
    reported as a status error, and no file is made for it. *)
Lemma no_content_is_a_status_error :
  let source := "http://localhost:8080/debug/pprof/block?duration=0" in
  exists resp,
    mock.server 0 source (saveDebug_timeout 0) = inr resp
    /\ (200 <= http.StatusCode resp < 300)%Z
    /\ result (mock.saveDebug source "/tmp/dbg-block.gz" 0) empty_world
       = Some "server response: 204 No Content"
    /\ files (final (mock.saveDebug source "/tmp/dbg-block.gz" 0) empty_world)
       !! "/tmp/dbg-block.gz" = None.
Proof.
  intros source. eexists. split; [reflexivity |].
  split; [simpl; lia |]. split; reflexivity.
Qed.

Lemma saveDebug_timeout_in_range_witness :
  (0 <= 10 * time.Second)%Z
  /\ (10 * time.Second + 10 * time.Second / 2 + 2 * time.Second <= time.MaxInt64)%Z
  /\ gets (trace (mock.saveDebug "http://localhost:8080/health" "/tmp/dbg-health.gz"
                    (10 * time.Second)) empty_world)
     = [("http://localhost:8080/health", (17 * time.Second)%Z)].
Proof.
  assert (H0 : (0 <= 10 * time.Second)%Z) by (vm_compute; discriminate).
  assert (H1 : (10 * time.Second + 10 * time.Second / 2 + 2 * time.Second
                <= time.MaxInt64)%Z) by (vm_compute; discriminate).
  split; [exact H0 |]. split; [exact H1 |].
  exact (proj1 (saveDebug_timeout_in_range
                  mock.server mock.disk mock.sound
                  "http://localhost:8080/health" "/tmp/dbg-health.gz"
                  (10 * time.Second) empty_world H0 H1)).
Defined.

(** At the largest duration the sum wraps around: the timeout of the GET
    is negative, not [d + d/2 + 2s]. *)
Lemma timeout_wraps_around :
  (0 <= time.MaxInt64)%Z
  /\ gets (trace (mock.saveDebug "http://localhost:8080/health" "/tmp/dbg-health.gz"
                    time.MaxInt64) empty_world)
     = [("http://localhost:8080/health", (-4611686016427387906)%Z)]
  /\ (-4611686016427387906)%Z
     <> (time.MaxInt64 + time.MaxInt64 / 2 + 2 * time.Second)%Z.
Proof.
  split; [vm_compute; discriminate |]. split; [reflexivity | vm_compute; discriminate].
Qed.

Lemma saveDebug_writes_body_as_delivered_witness :
  let source := "http://localhost:8080/debug/pprof/heap?duration=5" in
  let run := saveDebug (transport.RoundTrip mock.wire) mock.disk mock.sound
                       source "/tmp/dbg-heap.gz" (5 * time.Second) in
  result run empty_world = None
  /\ files (final run empty_world) !! "/tmp/dbg-heap.gz" = Some "heap-profile-bytes".
Proof.
  intros source run. split; [reflexivity |].
  destruct (saveDebug_writes_body_as_delivered
              mock.wire mock.disk mock.sound source "/tmp/dbg-heap.gz"
              (5 * time.Second) empty_world eq_refl)
    as (resp & Hwire & _ & _ & _ & Hsent & _).
  injection Hwire as <-. exact (proj2 (Hsent eq_refl)).
Defined.

(** A server that answers with [Content-Encoding: gzip], as the client's
    transport has asked it to: the fetch succeeds, and the file holds the
    18 bytes the transport has decompressed, not the 38 bytes of the body
    the server sent. *)
Lemma compressed_answer_is_not_written_as_sent :
  let source := "http://localhost:8080/debug/pprof/heap?duration=5" in
  let run := saveDebug (transport.RoundTrip mock.compressing) mock.disk mock.sound
                       source "/tmp/dbg-heap.gz" (5 * time.Second) in
  exists resp,
    mock.compressing 0 source (saveDebug_timeout (5 * time.Second)) = inr resp
    /\ http.data (http.body (transport.response resp)) = mock.compressed
    /\ String.length mock.compressed = 38%nat
    /\ result run empty_world = None
    /\ files (final run empty_world) !! "/tmp/dbg-heap.gz" = Some "heap-profile-bytes"
    /\ "heap-profile-bytes" <> mock.compressed.
Proof.
  intros source run. eexists. split; [reflexivity |].
  split; [reflexivity |]. split; [reflexivity |].
  split; [vm_compute; reflexivity |].
  split; [vm_compute; reflexivity | vm_compute; discriminate].
Qed.

Lemma status_error_message_witness :
  let source := "http://localhost:8080/debug/pprof/goroutine?duration=5" in
  let resp := mock.pprof_failure 500 "500 Internal Server Error" "out of memory" in
  mock.server 0 source (saveDebug_timeout (5 * time.Second)) = inr resp
  /\ http.StatusCode resp <> http.StatusOK
  /\ result (fetchURL mock.server source (saveDebug_timeout (5 * time.Second)))
            empty_world
     = inl "server response: 500 Internal Server Error - out of memory".
Proof.
  intros source resp.
  assert (Hcode : http.StatusCode resp <> http.StatusOK) by discriminate.
  split; [reflexivity |]. split; [exact Hcode |].
  refine (proj1 (status_error_message
                   mock.server source (saveDebug_timeout (5 * time.Second))
                   empty_world resp eq_refl Hcode) _).
  split; [discriminate | split; reflexivity].
Defined.


(** ** The count of seconds

    [int(duration.Seconds())] goes through [float64].  For the durations
    the command line gives, a whole number of seconds, it is that number,
    and a fraction is dropped; the sum of the two [float64] parts is
    rounded, so that from 2^24 seconds on a duration a nanosecond short of
    a second counts as that second. *)
Remark seconds_of_a_duration :
  time.int (time.Seconds (5 * time.Second)) = 5%Z
  /\ time.int (time.Seconds 0) = 0%Z
  /\ time.int (time.Seconds 1600000000) = 1%Z
  /\ time.int (time.Seconds (-1600000000)) = (-1)%Z
  /\ time.int (time.Seconds 16777216999999999) = 16777217%Z.
Proof. repeat split; vm_compute; reflexivity. Qed.

(** * More of the collector *)

(** ** One fetch-and-save, case by case *)

Lemma length_append (s t : string) :
  String.length (s +:+ t) = (String.length s + String.length t)%nat.
Proof.
  induction s as [|c s IH]; [reflexivity |].
  change (String c s +:+ t) with (String c (s +:+ t)). simpl. now rewrite IH.
Qed.

(** [s +:+ t] determines [s] when [t] is known. *)
Lemma append_inj_l (t s1 s2 : string) : s1 +:+ t = s2 +:+ t -> s1 = s2.
Proof.
  revert s2; induction s1 as [|c s1 IH]; intros [|c' s2] H.
  - reflexivity.
  - apply (f_equal String.length) in H.
    rewrite !length_append in H. simpl in H. lia.
  - apply (f_equal String.length) in H.
    rewrite !length_append in H. simpl in H. lia.
  - change (String c s1 +:+ t) with (String c (s1 +:+ t)) in H.
    change (String c' s2 +:+ t) with (String c' (s2 +:+ t)) in H.
    injection H as -> H. f_equal. now apply IH.
Qed.

Ltac unfold_goal :=
  unfold saveDebug, fetchURL, statusCodeError, ReadAll, Copy, Create, Close,
    client_Get, url_dot_Parse, trace, result, final, bind, call, ret.

Section FetchCases.

Variable net : nat -> string -> Z -> string + http.Response.
Variable create_err : string -> option string.
Variable write_fault : string -> option (nat * string).

Local Abbreviation saveDebug := (saveDebug net create_err write_fault).
Local Abbreviation fetchURL := (fetchURL net).


Lemma saveDebug_frame (source filePath : string) (duration : Z) (w : World)
      (other : string) :
  other <> filePath ->
  files (final (saveDebug source filePath duration) w) !! other = files w !! other.
Proof.
  intros Hne. run_go; rewrite ?lookup_insert_ne by congruence; reflexivity.
Qed.

(** X1. When the GET itself fails, [saveDebug] returns the client's error
    behind [http fetch: ], and nothing else has happened: no file is
    created, none is changed, and no handle or body is left open. *)
Theorem saveDebug_network_error (source filePath : string) (duration : Z)
        (w : World) (e : string) :
  net (requests w) source (saveDebug_timeout duration) = inl e ->
  result (saveDebug source filePath duration) w = Some ("http fetch: " +:+ e)
  /\ creates (trace (saveDebug source filePath duration) w) = []
  /\ files (final (saveDebug source filePath duration) w) = files w
  /\ open_files (final (saveDebug source filePath duration) w) = open_files w
  /\ open_bodies (final (saveDebug source filePath duration) w) = open_bodies w.
Proof.
  intros Hnet. unfold_go.
  destruct (0 <? duration)%Z; simpl; rewrite Hnet; simpl; auto.
Qed.

(** X2. When the response is a 200 and [os.Create] fails, [saveDebug]
    returns that error behind [error while creating dump file: ], copies
    nothing, changes no file, and has closed the body. *)
Theorem saveDebug_create_error (source filePath : string) (duration : Z)
        (w : World) (resp : http.Response) (e : string) :
  net (requests w) source (saveDebug_timeout duration) = inr resp ->
  http.StatusCode resp = http.StatusOK ->
  create_err filePath = Some e ->
  result (saveDebug source filePath duration) w
  = Some ("error while creating dump file: " +:+ e)
  /\ copies (trace (saveDebug source filePath duration) w) = []
  /\ files (final (saveDebug source filePath duration) w) = files w
  /\ open_files (final (saveDebug source filePath duration) w) = open_files w
  /\ (requests w ∉ open_bodies (final (saveDebug source filePath duration) w)).
Proof.
  intros Hnet Hcode Hcreate. apply Z.eqb_eq in Hcode. unfold_go.
  destruct (0 <? duration)%Z; simpl; rewrite Hnet; simpl; rewrite Hcode; simpl;
    rewrite Hcreate; simpl; (repeat split; [sets]).
Qed.

(** X3. When the disk fails after [n] bytes, fewer than the body has,
    [saveDebug] returns the error of the disk and leaves the file behind
    with the first [n] bytes of the body: it is not removed. *)
Theorem saveDebug_write_failure (source filePath : string) (duration : Z)
        (w : World) (resp : http.Response) (n : nat) (e : string) :
  net (requests w) source (saveDebug_timeout duration) = inr resp ->
  http.StatusCode resp = http.StatusOK ->
  create_err filePath = None ->
  write_fault filePath = Some (n, e) ->
  (n < String.length (http.data (http.body resp)))%nat ->
  result (saveDebug source filePath duration) w = Some e
  /\ files (final (saveDebug source filePath duration) w) !! filePath
     = Some (strings.take n (http.data (http.body resp))).
Proof.
  intros Hnet Hcode Hcreate Hfault Hn.
  apply Z.eqb_eq in Hcode. apply Nat.ltb_lt in Hn. unfold_go.
  destruct (0 <? duration)%Z; simpl; rewrite Hnet; simpl; rewrite Hcode; simpl;
    rewrite Hcreate; simpl; rewrite Hfault, Hn; simpl;
    rewrite !lookup_insert_eq; auto.
Qed.

(** X4. When the body breaks off with an error and the disk holds, what
    [saveDebug] returns is that error, and the file is left behind with
    the bytes that came before it. *)
Theorem saveDebug_read_failure (source filePath : string) (duration : Z)
        (w : World) (resp : http.Response) (e : string) :
  net (requests w) source (saveDebug_timeout duration) = inr resp ->
  http.StatusCode resp = http.StatusOK ->
  create_err filePath = None ->
  write_fault filePath = None ->
  http.read_err (http.body resp) = Some e ->
  result (saveDebug source filePath duration) w = Some e
  /\ files (final (saveDebug source filePath duration) w) !! filePath
     = Some (http.data (http.body resp)).
Proof.
  intros Hnet Hcode Hcreate Hfault Hread.
  apply Z.eqb_eq in Hcode. unfold_go.
  destruct (0 <? duration)%Z; simpl; rewrite Hnet; simpl; rewrite Hcode; simpl;
    rewrite Hcreate; simpl; rewrite Hfault, Hread; simpl;
    rewrite !lookup_insert_eq; auto.
Qed.

(** What makes a fetch-and-save succeed. *)
Lemma saveDebug_succeeds (source filePath : string) (duration : Z)
      (w : World) (resp : http.Response) :
  net (requests w) source (saveDebug_timeout duration) = inr resp ->
  http.StatusCode resp = http.StatusOK ->
  http.read_err (http.body resp) = None ->
  create_err filePath = None ->
  (forall n e, write_fault filePath = Some (n, e) ->
               (String.length (http.data (http.body resp)) <= n)%nat) ->
  result (saveDebug source filePath duration) w = None
  /\ files (final (saveDebug source filePath duration) w) !! filePath
     = Some (http.data (http.body resp)).
Proof.
  intros Hnet Hcode Hread Hcreate Hfault.
  apply Z.eqb_eq in Hcode. unfold_go.
  destruct (write_fault filePath) as [[n e] |] eqn:Hwf.
  - assert (Hn : (n <? String.length (http.data (http.body resp)))%nat = false)
      by (apply Nat.ltb_ge; eauto).
    destruct (0 <? duration)%Z; simpl; rewrite Hnet; simpl; rewrite Hcode; simpl;
      rewrite Hcreate; simpl; rewrite Hwf, Hn, Hread; simpl;
      rewrite !lookup_insert_eq; auto.
  - destruct (0 <? duration)%Z; simpl; rewrite Hnet; simpl; rewrite Hcode; simpl;
      rewrite Hcreate; simpl; rewrite Hwf, Hread; simpl;
      rewrite !lookup_insert_eq; auto.
Qed.

Lemma saveDebug_success_inv (source filePath : string) (duration : Z) (w : World) :
  result (saveDebug source filePath duration) w = None ->
  exists resp,
    net (requests w) source (saveDebug_timeout duration) = inr resp
    /\ http.StatusCode resp = http.StatusOK
    /\ http.read_err (http.body resp) = None
    /\ create_err filePath = None
    /\ (forall n e, write_fault filePath = Some (n, e) ->
                    (String.length (http.data (http.body resp)) <= n)%nat).
Proof.
  unfold_go.
  destruct (0 <? duration)%Z; simpl;
    (destruct (net (requests w) source (saveDebug_timeout duration))
       as [e | resp] eqn:Hnet; simpl; [discriminate |]);
    (destruct (http.StatusCode resp =? http.StatusOK)%Z eqn:Hcode; simpl;
     [| repeat (simpl; try split_match); discriminate]);
    apply Z.eqb_eq in Hcode;
    (destruct (create_err filePath) eqn:Hcreate; simpl; [discriminate |]);
    (destruct (write_fault filePath) as [[n e] |] eqn:Hwf; simpl;
     [destruct (n <? String.length (http.data (http.body resp)))%nat eqn:Hn; simpl;
      [discriminate |] |]);
    intros Hres; exists resp; repeat split; auto; try discriminate;
    intros n' e' [= <- <-]; now apply Nat.ltb_ge.
Qed.

(** X5. [saveDebug] returns [nil] exactly when the GET came back with a
    response of status 200 whose body could be read to its end, the file
    could be created, and the disk took every byte of the body. *)
Theorem saveDebug_success_iff (source filePath : string) (duration : Z)
        (w : World) :
  result (saveDebug source filePath duration) w = None
  <-> exists resp,
        net (requests w) source (saveDebug_timeout duration) = inr resp
        /\ http.StatusCode resp = http.StatusOK
        /\ http.read_err (http.body resp) = None
        /\ create_err filePath = None
        /\ (forall n e, write_fault filePath = Some (n, e) ->
                        (String.length (http.data (http.body resp)) <= n)%nat).
Proof.
  split.
  - apply saveDebug_success_inv.
  - intros (resp & Hnet & Hcode & Hread & Hcreate & Hfault).
    now apply (saveDebug_succeeds source filePath duration w resp).
Qed.

(** X6. [saveDebug] changes no file but its destination, whatever comes
    of the fetch. *)
Theorem saveDebug_touches_only_its_file (source filePath : string)
        (duration : Z) (w : World) (other : string) :
  other <> filePath ->
  files (final (saveDebug source filePath duration) w) !! other = files w !! other.
Proof. apply saveDebug_frame. Qed.



(** No file is ever removed. *)
Lemma saveDebug_keeps_files (source filePath : string) (duration : Z) (w : World)
      (p : string) :
  is_Some (files w !! p) ->
  is_Some (files (final (saveDebug source filePath duration) w) !! p).
Proof.
  intros Hp. destruct (decide (p = filePath)) as [-> | Hne].
  - run_go; rewrite ?lookup_insert_eq; eauto.
  - now rewrite saveDebug_frame.
Qed.

Lemma saveDebug_saved_exists (source filePath : string) (duration : Z) (w : World) :
  result (saveDebug source filePath duration) w = None ->
  is_Some (files (final (saveDebug source filePath duration) w) !! filePath).
Proof.
  intros Hres.
  destruct (saveDebug_success_inv _ _ _ _ Hres) as (resp & Hnet & Hc & Hr & Hcr & Hwf).
  destruct (saveDebug_succeeds _ filePath _ w resp Hnet Hc Hr Hcr Hwf) as [_ ->]. eauto.
Qed.

End FetchCases.

Section FetchBody.

Variable net : nat -> string -> Z -> string + http.Response.

(** X7. [fetchURL] hands on an open body for a response of status 200
    only.  For any other response it has closed the body when it
    returns; it reads the body first when the response has a value under
    [X-Go-Pprof] and a content type that mentions [text/plain], and
    otherwise closes it unread. *)
Theorem fetchURL_body (source : string) (timeout : Z) (w : World)
        (resp : http.Response) :
  net (requests w) source timeout = inr resp ->
  (http.StatusCode resp = http.StatusOK ->
     trace (fetchURL net source timeout) w = [http_Get source timeout]
     /\ (requests w ∈ open_bodies (final (fetchURL net source timeout) w)))
  /\ (http.StatusCode resp <> http.StatusOK ->
        trace (fetchURL net source timeout) w
        = (http_Get source timeout
           :: (if negb (String.eqb (http.Header_Get (http.Header resp) "X-Go-Pprof") "")
                  && strings.Contains
                       (http.Header_Get (http.Header resp) "Content-Type")
                       "text/plain"
               then [ioutil_ReadAll (requests w)] else [])
           ++ [Body_Close (requests w)])%list
        /\ (requests w ∉ open_bodies (final (fetchURL net source timeout) w))).
Proof.
  intros Hnet. split; intros Hcode.
  - apply Z.eqb_eq in Hcode. unfold_goal. rewrite Hnet; simpl. rewrite Hcode; simpl.
    split; [reflexivity | sets].
  - apply Z.eqb_neq in Hcode. unfold_goal. rewrite Hnet; simpl. rewrite Hcode; simpl.
    repeat (simpl; try split_match); (split; [reflexivity | sets]).
Qed.

End FetchBody.

(** ** A loop of fetches *)

Lemma final_for_range_app {A} (l1 l2 : list A) (body : A -> M unit) (w : World) :
  final (for_range (l1 ++ l2)%list body) w
  = final (for_range l2 body) (final (for_range l1 body) w).
Proof.
  revert w; induction l1 as [|x l1 IH]; intros w.
  - reflexivity.
  - change ((x :: l1) ++ l2)%list with (x :: (l1 ++ l2))%list.
    rewrite !final_for_range_cons. apply IH.
Qed.

Section Loop.

Context {A : Type} (body : A -> M unit) (path : A -> string).

(** Every turn is one request, and changes no file but its own. *)
Hypothesis body_requests :
  forall x w, requests (final (body x) w) = S (requests w).
Hypothesis body_frame :
  forall x w p, p <> path x -> files (final (body x) w) !! p = files w !! p.


Lemma loop_frame (l : list A) (w : World) (p : string) :
  (forall x, x ∈ l -> path x <> p) ->
  files (final (for_range l body) w) !! p = files w !! p.
Proof.
  revert w; induction l as [|x l IH]; intros w Hl.
  - reflexivity.
  - rewrite final_for_range_cons, IH.
    + apply body_frame. intros ->. apply (Hl x); [left | reflexivity].
    + intros y Hy. apply Hl. now right.
Qed.



End Loop.



Lemma path_inj (pathPrefix n1 n2 : string) :
  pathPrefix +:+ n1 +:+ ".gz" = pathPrefix +:+ n2 +:+ ".gz" -> n1 = n2.
Proof.
  intros H. apply (String.app_inj pathPrefix) in H. now apply append_inj_l in H.
Qed.


Lemma loop_closes_bodies {A} (body : A -> M unit) :
  (forall x w b, b ∈ open_bodies (final (body x) w) -> b ∈ open_bodies w) ->
  forall l w b, b ∈ open_bodies (final (for_range l body) w) -> b ∈ open_bodies w.
Proof.
  intros Hbody l; induction l as [|x l IH]; intros w b Hb.
  - exact Hb.
  - rewrite final_for_range_cons in Hb. eauto.
Qed.

Lemma loop_keeps_files {A} (body : A -> M unit) :
  (forall x w p, is_Some (files w !! p) -> is_Some (files (final (body x) w) !! p)) ->
  forall l w p, is_Some (files w !! p) ->
                is_Some (files (final (for_range l body) w) !! p).
Proof.
  intros Hbody l; induction l as [|x l IH]; intros w p Hp.
  - exact Hp.
  - rewrite final_for_range_cons. eauto.
Qed.

(** A note that an endpoint was saved, in the trace of a loop whose turns
    log it only over an existing file, is that of an endpoint of the list
    whose file exists when the loop ends. *)
Lemma loop_saved (body : string -> M unit) (path : string -> string) :
  (forall x w p, is_Some (files w !! p) -> is_Some (files (final (body x) w) !! p)) ->
  (forall x w n, (INFO, n) ∈ verdicts (trace (body x) w) ->
                 n = x /\ is_Some (files (final (body x) w) !! path x)) ->
  forall l w n,
    (INFO, n) ∈ verdicts (trace (for_range l body) w) ->
    n ∈ l /\ is_Some (files (final (for_range l body) w) !! path n).
Proof.
  intros Hkeep Hnote l; induction l as [|x l IH]; intros w n Hn.
  - cbv in Hn. now apply elem_of_nil in Hn.
  - rewrite trace_for_range_cons, verdicts_app in Hn.
    rewrite final_for_range_cons.
    apply elem_of_app in Hn as [Hn | Hn].
    + destruct (Hnote x w n Hn) as [-> Hfile]. split; [left |].
      now apply loop_keeps_files.
    + destruct (IH _ _ Hn) as [Hin Hfile]. split; [now right | exact Hfile].
Qed.

(** ** The batches and the files *)

Section BatchFiles.

Variable Parse : string -> url.Error + url.URL.
Variable URLString : url.URL -> string.
Variable net : nat -> string -> Z -> string + http.Response.
Variable create_err : string -> option string.
Variable write_fault : string -> option (nat * string).

Local Abbreviation saveDebug := (saveDebug net create_err write_fault).
Local Abbreviation saveProfiles_each :=
  (saveProfiles_each URLString net create_err write_fault).
Local Abbreviation saveMetrics_each :=
  (saveMetrics_each URLString net create_err write_fault).
Local Abbreviation saveProfiles :=
  (saveProfiles Parse URLString net create_err write_fault).
Local Abbreviation saveMetrics :=
  (saveMetrics Parse URLString net create_err write_fault).
Local Abbreviation saveProfiles_parsed := (saveProfiles_parsed Parse).
Local Abbreviation saveMetrics_parsed := (saveMetrics_parsed Parse).
Local Abbreviation saveProfiles_base := (saveProfiles_base Parse).
Local Abbreviation saveMetrics_base := (saveMetrics_base Parse).
Local Abbreviation profile_source u d name :=
  (URLString u +:+ "/debug/pprof/" +:+ name +:+ "?duration="
   +:+ Itoa (time.int (time.Seconds d))).
Local Abbreviation metric_source u name := (URLString u +:+ "/" +:+ name).
Local Abbreviation save_path pathPrefix name := (pathPrefix +:+ name +:+ ".gz").

(** The world after a turn is the world after its fetch-and-save. *)
Lemma saveProfiles_each_final (u : url.URL) (pathPrefix : string) (duration : Z)
      (name : string) (w : World) :
  final (saveProfiles_each u pathPrefix duration name) w
  = final (saveDebug (profile_source u duration name) (save_path pathPrefix name)
             duration) w.
Proof. unfold_each. rewrite final_bind. destruct (result _ _); reflexivity. Qed.

Lemma saveMetrics_each_final (u : url.URL) (pathPrefix : string) (duration : Z)
      (name : string) (w : World) :
  final (saveMetrics_each u pathPrefix duration name) w
  = final (saveDebug (metric_source u name) (save_path pathPrefix name) duration) w.
Proof. unfold_each. rewrite final_bind. destruct (result _ _); reflexivity. Qed.



Lemma saveProfiles_each_frame (u : url.URL) (pathPrefix : string) (duration : Z)
      (name : string) (w : World) (p : string) :
  p <> save_path pathPrefix name ->
  files (final (saveProfiles_each u pathPrefix duration name) w) !! p = files w !! p.
Proof. rewrite saveProfiles_each_final. apply saveDebug_frame. Qed.

Lemma saveMetrics_each_frame (u : url.URL) (pathPrefix : string) (duration : Z)
      (name : string) (w : World) (p : string) :
  p <> save_path pathPrefix name ->
  files (final (saveMetrics_each u pathPrefix duration name) w) !! p = files w !! p.
Proof. rewrite saveMetrics_each_final. apply saveDebug_frame. Qed.






(** X9. A batch changes no file but those of its endpoints: a file that
    is not [pathPrefix + name + ".gz"] for a name of the list is, when
    the batch returns, as it was. *)
Theorem batch_touches_only_its_files (addr pathPrefix : string) (duration : Z)
        (names : list string) (w : World) (p : string) :
  (forall name, name ∈ names -> pathPrefix +:+ name +:+ ".gz" <> p) ->
  files (final (saveProfiles addr pathPrefix duration names) w) !! p = files w !! p
  /\ files (final (saveMetrics addr pathPrefix duration names) w) !! p = files w !! p.
Proof.
  intros Hp. rewrite saveProfiles_final, saveMetrics_final.
  change (saveMetrics_base addr) with (saveProfiles_base addr).
  destruct (saveProfiles_base addr) as [u |]; [| split; reflexivity].
  split.
  - apply (loop_frame _ (fun name => save_path pathPrefix name)); [| exact Hp].
    intros x w' p'. apply saveProfiles_each_frame.
  - apply (loop_frame _ (fun name => save_path pathPrefix name)); [| exact Hp].
    intros x w' p'. apply saveMetrics_each_frame.
Qed.







(** X12. No response body outlives a batch: every body that is open when
    a batch returns was open before it began. *)
Theorem batch_closes_every_body (addr pathPrefix : string) (duration : Z)
        (names : list string) (w : World) (b : nat) :
  (b ∈ open_bodies (final (saveProfiles addr pathPrefix duration names) w)
   -> b ∈ open_bodies w)
  /\ (b ∈ open_bodies (final (saveMetrics addr pathPrefix duration names) w)
      -> b ∈ open_bodies w).
Proof.
  rewrite saveProfiles_final, saveMetrics_final.
  change (saveMetrics_base addr) with (saveProfiles_base addr).
  destruct (saveProfiles_base addr) as [u |]; [| split; auto].
  split; apply loop_closes_bodies; intros x w' b'.
  - rewrite saveProfiles_each_final. apply saveDebug_closes_body.
  - rewrite saveMetrics_each_final. apply saveDebug_closes_body.
Qed.

(** X13. A batch over a list in two parts leaves the world that the batch
    over the first part and then the batch over the second leave, and
    makes the same GETs. *)
Theorem batch_in_two_parts (addr pathPrefix : string) (duration : Z)
        (l1 l2 : list string) (w : World) :
  (final (saveProfiles addr pathPrefix duration (l1 ++ l2)%list) w
   = final (saveProfiles addr pathPrefix duration l2)
       (final (saveProfiles addr pathPrefix duration l1) w)
   /\ gets (trace (saveProfiles addr pathPrefix duration (l1 ++ l2)%list) w)
      = (gets (trace (saveProfiles addr pathPrefix duration l1) w)
         ++ gets (trace (saveProfiles addr pathPrefix duration l2)
                    (final (saveProfiles addr pathPrefix duration l1) w)))%list)
  /\ (final (saveMetrics addr pathPrefix duration (l1 ++ l2)%list) w
      = final (saveMetrics addr pathPrefix duration l2)
          (final (saveMetrics addr pathPrefix duration l1) w)
      /\ gets (trace (saveMetrics addr pathPrefix duration (l1 ++ l2)%list) w)
         = (gets (trace (saveMetrics addr pathPrefix duration l1) w)
            ++ gets (trace (saveMetrics addr pathPrefix duration l2)
                       (final (saveMetrics addr pathPrefix duration l1) w)))%list).
Proof.
  rewrite !saveProfiles_final, !saveMetrics_final, !saveProfiles_gets, !saveMetrics_gets.
  change (saveMetrics_base addr) with (saveProfiles_base addr).
  destruct (saveProfiles_base addr) as [u |]; [| repeat split; reflexivity].
  rewrite !final_for_range_app, !map_app. repeat split; reflexivity.
Qed.

(** X14. An address that parses at once to a URL with a host is taken as
    it is: it is parsed once, and the GETs of both batches are built on
    that URL. *)
Theorem address_with_host_is_used_as_is (addr pathPrefix : string) (duration : Z)
        (names : list string) (w : World) (u : url.URL) :
  Parse addr = inr u ->
  url.Host u <> "" ->
  (parses (trace (saveProfiles addr pathPrefix duration names) w) = [addr]
   /\ map fst (gets (trace (saveProfiles addr pathPrefix duration names) w))
      = map (fun name => profile_source u duration name) names)
  /\ (parses (trace (saveMetrics addr pathPrefix duration names) w) = [addr]
      /\ map fst (gets (trace (saveMetrics addr pathPrefix duration names) w))
         = map (fun name => metric_source u name) names).
Proof.
  intros Hparse Hhost.
  assert (Hagain : saveProfiles_again (Parse addr) = false).
  { rewrite Hparse. simpl. apply String.eqb_neq in Hhost. now rewrite Hhost. }
  assert (Hbase : saveProfiles_base addr = Some u).
  { unfold_batch. rewrite Hagain, Hparse. apply String.eqb_neq in Hhost.
    now rewrite Hhost. }
  rewrite saveProfiles_parses, saveMetrics_parses, saveProfiles_gets, saveMetrics_gets.
  change (saveMetrics_again (Parse addr)) with (saveProfiles_again (Parse addr)).
  change (saveMetrics_base addr) with (saveProfiles_base addr).
  rewrite Hagain, Hbase, !map_map. repeat split; reflexivity.
Qed.

(** X15. An address that parses to a URL without a host, and with no
    scheme or the scheme [file], is refused without a second parse: all
    that either batch does is to parse it once and to log the parse
    error, which is then the [nil] error of the parse that succeeded. *)
Theorem hostless_address_is_refused (addr pathPrefix : string) (duration : Z)
        (names : list string) (w : World) (u : url.URL) :
  Parse addr = inr u ->
  url.Host u = "" ->
  url.Scheme u = "" \/ url.Scheme u = "file" ->
  let refusal :=
    [url_Parse addr;
     glog ERROR "error while parsing address %s: %s"
       [AString addr; AParseError None]] in
  (trace (saveProfiles addr pathPrefix duration names) w = refusal
   /\ final (saveProfiles addr pathPrefix duration names) w = w)
  /\ (trace (saveMetrics addr pathPrefix duration names) w = refusal
      /\ final (saveMetrics addr pathPrefix duration names) w = w).
Proof.
  intros Hparse Hhost Hscheme refusal. subst refusal.
  assert (Hagain : saveProfiles_again (Parse addr) = false).
  { rewrite Hparse. simpl. rewrite Hhost. simpl.
    destruct Hscheme as [-> | ->]; reflexivity. }
  assert (Hparsed : saveProfiles_parsed addr = inr u).
  { unfold_batch. now rewrite Hagain. }
  assert (Hbase : saveProfiles_base addr = None).
  { unfold_batch. now rewrite Hagain, Hparse, Hhost. }
  assert (Hparsed' : saveMetrics_parsed addr = inr u) by exact Hparsed.
  rewrite saveProfiles_trace, saveMetrics_trace, saveProfiles_final, saveMetrics_final.
  change (saveMetrics_again (Parse addr)) with (saveProfiles_again (Parse addr)).
  change (saveMetrics_base addr) with (saveProfiles_base addr).
  rewrite Hagain, Hbase, Hparsed, Hparsed'. repeat split; reflexivity.
Qed.

Lemma saveProfiles_each_saved (u : url.URL) (pathPrefix : string) (duration : Z)
      (x : string) (w : World) (n : string) :
  (INFO, n) ∈ verdicts (trace (saveProfiles_each u pathPrefix duration x) w) ->
  n = x
  /\ is_Some (files (final (saveProfiles_each u pathPrefix duration x) w)
                !! save_path pathPrefix x).
Proof.
  rewrite saveProfiles_each_final. unfold_each.
  rewrite trace_bind, verdicts_app, saveDebug_verdicts.
  destruct (result _ _) eqn:Hres; simpl; intros Hn;
    apply list_elem_of_singleton in Hn; [discriminate |].
  injection Hn as ->. split; [reflexivity |]. now apply saveDebug_saved_exists.
Qed.

Lemma saveMetrics_each_saved (u : url.URL) (pathPrefix : string) (duration : Z)
      (x : string) (w : World) (n : string) :
  (INFO, n) ∈ verdicts (trace (saveMetrics_each u pathPrefix duration x) w) ->
  n = x
  /\ is_Some (files (final (saveMetrics_each u pathPrefix duration x) w)
                !! save_path pathPrefix x).
Proof.
  rewrite saveMetrics_each_final. unfold_each.
  rewrite trace_bind, verdicts_app, saveDebug_verdicts.
  destruct (result _ _) eqn:Hres; simpl; intros Hn;
    apply list_elem_of_singleton in Hn; [discriminate |].
  injection Hn as ->. split; [reflexivity |]. now apply saveDebug_saved_exists.
Qed.

(** X16. The log does not promise a file that is not there: when a batch
    has logged that an endpoint was saved, the endpoint is one of the
    list and its file exists when the batch returns. *)
Theorem saved_note_means_file_exists (addr pathPrefix : string) (duration : Z)
        (names : list string) (w : World) (name : string) :
  ((INFO, name) ∈ verdicts (trace (saveProfiles addr pathPrefix duration names) w) ->
   name ∈ names
   /\ is_Some (files (final (saveProfiles addr pathPrefix duration names) w)
                 !! (pathPrefix +:+ name +:+ ".gz")))
  /\ ((INFO, name) ∈ verdicts (trace (saveMetrics addr pathPrefix duration names) w) ->
      name ∈ names
      /\ is_Some (files (final (saveMetrics addr pathPrefix duration names) w)
                    !! (pathPrefix +:+ name +:+ ".gz"))).
Proof.
  rewrite saveProfiles_trace, saveMetrics_trace, saveProfiles_final, saveMetrics_final.
  rewrite !verdicts_app, !verdicts_map_url_Parse.
  change (saveMetrics_base addr) with (saveProfiles_base addr).
  destruct (saveProfiles_base addr) as [u |].
  - split; simpl; intros Hn.
    + apply (loop_saved _ (fun x => save_path pathPrefix x)) in Hn; [exact Hn | |].
      * intros x w' p. rewrite saveProfiles_each_final. apply saveDebug_keeps_files.
      * apply saveProfiles_each_saved.
    + apply (loop_saved _ (fun x => save_path pathPrefix x)) in Hn; [exact Hn | |].
      * intros x w' p. rewrite saveMetrics_each_final. apply saveDebug_keeps_files.
      * apply saveMetrics_each_saved.
  - split; simpl; intros Hn; now apply elem_of_nil in Hn.
Qed.

End BatchFiles.

(** ** The timeout past its range *)

Lemma int64_wrapped (z : Z) :
  (2 ^ 63 <= z < 2 ^ 64)%Z -> time.int64 z = (z - 2 ^ 64)%Z.
Proof.
  intros H. unfold time.int64.
  replace (z + 2 ^ 63)%Z with ((z - 2 ^ 63) + 1 * 2 ^ 64)%Z by lia.
  rewrite Z_mod_plus_full, Z.mod_small by lia. lia.
Qed.

(** X17. For a duration [d >= 0] whose [d + d/2 + 2s] exceeds the largest
    [int64], the sum wraps around once: the timeout of the GET is
    [d + d/2 + 2s - 2^64], a negative duration. *)
Theorem timeout_past_range_is_negative
        (net : nat -> string -> Z -> string + http.Response)
        (create_err : string -> option string)
        (write_fault : string -> option (nat * string))
        (source filePath : string) (d : Z) (w : World) :
  (0 <= d <= time.MaxInt64)%Z ->
  (time.MaxInt64 < d + d / 2 + 2 * time.Second)%Z ->
  gets (trace (saveDebug net create_err write_fault source filePath d) w)
  = [(source, (d + d / 2 + 2 * time.Second - 2 ^ 64)%Z)]
  /\ (d + d / 2 + 2 * time.Second - 2 ^ 64 < 0)%Z.
Proof.
  intros Hd Hover. rewrite saveDebug_gets.
  unfold saveDebug_timeout, time.add, time.div, time.MaxInt64, time.Second in *.
  rewrite Z.quot_div_nonneg by lia.
  assert (H2 : (0 <= d / 2 <= 4611686018427387903)%Z).
  { split; [apply Z.div_pos; lia |].
    change 4611686018427387903%Z with (9223372036854775807 / 2)%Z.
    apply Z.div_le_mono; lia. }
  rewrite (int64_small (d / 2)) by lia.
  destruct (Z_le_gt_dec (d + d / 2) 9223372036854775807) as [Hin | Hout].
  - rewrite (int64_small (d + d / 2)) by lia.
    rewrite int64_wrapped by lia. split; [reflexivity | lia].
  - rewrite (int64_wrapped (d + d / 2)) by lia.
    rewrite int64_small by lia. split; [f_equal; f_equal; lia | lia].
Qed.

(** ** Addresses of the form [name:port] under the library's parser *)

Section HostPort.

Import address.

Ltac each_byte c H :=
  destruct c as [[] [] [] [] [] [] [] []];
  try (vm_compute in H; discriminate H).

Lemma all_bytes_app (ok : ascii -> bool) (s t : string) :
  all_bytes ok (s +:+ t) = all_bytes ok s && all_bytes ok t.
Proof.
  induction s as [|c s IH]; [reflexivity |].
  change (String c s +:+ t) with (String c (s +:+ t)). simpl.
  now rewrite IH, andb_assoc.
Qed.

Lemma all_bytes_weaken (ok ok' : ascii -> bool) (s : string) :
  (forall c, ok c = true -> ok' c = true) ->
  all_bytes ok s = true -> all_bytes ok' s = true.
Proof.
  intros Hok. induction s as [|c s IH]; [reflexivity |]. simpl.
  rewrite !andb_true_iff. intros [Hc Hs]. auto.
Qed.

Lemma addr_bytes (h p : string) :
  host_name h = true -> port p = true ->
  all_bytes addr_byte (h +:+ ":" +:+ p) = true.
Proof.
  intros Hh Hp. rewrite !all_bytes_app, !andb_true_iff. split; [| split].
  - destruct h as [|c h]; [discriminate |].
    revert Hh. apply all_bytes_weaken. intros c' Hc'. unfold addr_byte.
    now rewrite Hc'.
  - reflexivity.
  - revert Hp. apply all_bytes_weaken. intros c Hc. unfold addr_byte, name_byte.
    unfold digit in Hc. unfold digit. rewrite Hc. now rewrite orb_true_r.
Qed.

Lemma no_control_byte (s : string) :
  all_bytes addr_byte s = true -> url.stringContainsCTLByte s = false.
Proof.
  induction s as [|c s IH]; [reflexivity |]. simpl.
  rewrite andb_true_iff. intros [Hc Hs]. rewrite (IH Hs).
  each_byte c Hc; reflexivity.
Qed.

Lemma no_byte_of (ok : ascii -> bool) (sep : ascii) (s : string) :
  ok sep = false ->
  all_bytes ok s = true ->
  strings.Index s (String sep "") = None
  /\ strings.LastIndex s (String sep "") = None
  /\ strings.CountByte s sep = 0%nat
  /\ strings.HasPrefix s (String sep "") = false.
Proof.
  intros Hsep. induction s as [|c s IH]; [now repeat split |].
  simpl. rewrite andb_true_iff. intros [Hc Hs].
  destruct (IH Hs) as (HI & HL & HC & _).
  unfold strings.HasPrefix. simpl. rewrite HI, HL, HC.
  destruct (ascii_dec sep c) as [-> | Hne]; [congruence |].
  apply Ascii.eqb_neq in Hne. rewrite Ascii.eqb_sym, Hne.
  destruct s; now repeat split.
Qed.

Lemma prefix_nil (s : string) : String.prefix "" s = true.
Proof. now destruct s. Qed.

Lemma take_app_length (s t : string) : strings.take (String.length s) (s +:+ t) = s.
Proof.
  induction s as [|c s IH]; [now destruct t |].
  change (String c s +:+ t) with (String c (s +:+ t)). simpl. now rewrite IH.
Qed.

Lemma drop_app_length (s t : string) : strings.drop (String.length s) (s +:+ t) = t.
Proof.
  induction s as [|c s IH]; [now destruct t |].
  change (String c s +:+ t) with (String c (s +:+ t)). simpl. exact IH.
Qed.

Lemma append_assoc (s t r : string) : (s +:+ t) +:+ r = s +:+ (t +:+ r).
Proof.
  induction s as [|c s IH]; [reflexivity |].
  change (String c s +:+ t) with (String c (s +:+ t)).
  change (String c (s +:+ t) +:+ r) with (String c ((s +:+ t) +:+ r)).
  change (String c s +:+ (t +:+ r)) with (String c (s +:+ (t +:+ r))).
  now rewrite IH.
Qed.

(** The host of [name:port] is kept as it is written, both ways. *)
Lemma host_unescaped (s : string) :
  all_bytes addr_byte s = true ->
  url.unescape s url.encodeHost = inr s /\ url.escape s url.encodeHost = s.
Proof.
  induction s as [|c s IH]; [now split |].
  simpl all_bytes. rewrite andb_true_iff. intros [Hc Hs].
  destruct (IH Hs) as [HU HE].
  each_byte c Hc; simpl; rewrite HU, HE; split; reflexivity.
Qed.

(** The last colon of [h:p] is the one before the port. *)
Lemma last_colon (h p : string) :
  port p = true ->
  strings.LastIndex (h +:+ ":" +:+ p) ":" = Some (String.length h).
Proof.
  intros Hp.
  assert (Hnone : strings.LastIndex p ":" = None).
  { now apply (no_byte_of digit ":" p). }
  induction h as [|c h IH].
  - change ("" +:+ ":" +:+ p) with (String ":" p). simpl. rewrite Hnone.
    now destruct p.
  - change (String c h +:+ ":" +:+ p) with (String c (h +:+ ":" +:+ p)).
    simpl. now rewrite IH.
Qed.

(** The scheme the library sees in [name:port] is the name. *)
Lemma getscheme_at_name (p h pre : string) :
  all_bytes name_byte h = true ->
  pre <> "" ->
  url.getscheme_at (String.length pre) (h +:+ ":" +:+ p) (pre +:+ h +:+ ":" +:+ p)
  = inr (pre +:+ h, p).
Proof.
  revert pre; induction h as [|c h IH]; intros pre Hh Hpre.
  - change ("" +:+ ":" +:+ p) with (String ":" p). simpl.
    destruct pre as [|c0 pre]; [congruence |]. simpl String.length. cbv iota.
    change (S (String.length pre)) with (String.length (String c0 pre)).
    now rewrite take_app_length, append_nil_r.
  - simpl in Hh. apply andb_true_iff in Hh as [Hc Hh].
    change (String c h +:+ ":" +:+ p) with (String c (h +:+ ":" +:+ p)).
    assert (Hstep : url.getscheme_at (String.length pre)
                      (String c (h +:+ ":" +:+ p)) (pre +:+ String c (h +:+ ":" +:+ p))
                    = url.getscheme_at (S (String.length pre)) (h +:+ ":" +:+ p)
                        (pre +:+ String c (h +:+ ":" +:+ p))).
    { destruct pre as [|c0 pre]; [congruence |].
      each_byte c Hc; reflexivity. }
    rewrite Hstep.
    replace (pre +:+ String c (h +:+ ":" +:+ p))
      with ((pre +:+ String c "") +:+ h +:+ ":" +:+ p)
      by (now rewrite append_assoc).
    replace (S (String.length pre)) with (String.length (pre +:+ String c ""))
      by (rewrite length_append; simpl; lia).
    rewrite IH; [| exact Hh | now destruct pre].
    now rewrite append_assoc.
Qed.

Lemma getscheme_name_port (c : ascii) (h p : string) :
  letter c = true -> all_bytes name_byte h = true ->
  url.getscheme (String c h +:+ ":" +:+ p) = inr (String c h, p).
Proof.
  intros Hl Hh. unfold url.getscheme.
  change (String c h +:+ ":" +:+ p) with (String c (h +:+ ":" +:+ p)).
  assert (Hstep : url.getscheme_at 0 (String c (h +:+ ":" +:+ p))
                    (String c (h +:+ ":" +:+ p))
                  = url.getscheme_at 1 (h +:+ ":" +:+ p)
                      (String c "" +:+ h +:+ ":" +:+ p)).
  { each_byte c Hl; reflexivity. }
  rewrite Hstep. change 1%nat with (String.length (String c "")).
  rewrite getscheme_at_name; [reflexivity | exact Hh | discriminate].
Qed.

(** A name that begins with a digit, [-] or [.] is no scheme. *)
Lemma getscheme_no_letter (c : ascii) (s : string) :
  name_byte c = true -> letter c = false ->
  url.getscheme (String c s) = inr ("", String c s).
Proof.
  intros Hc Hl. unfold url.getscheme.
  destruct c as [[] [] [] [] [] [] [] []];
    try (vm_compute in Hc; discriminate Hc);
    try (vm_compute in Hl; discriminate Hl); reflexivity.
Qed.

Lemma first_byte (ok : ascii -> bool) (sep : ascii) (h t : string) :
  ok sep = false ->
  all_bytes ok h = true ->
  strings.Index (h +:+ String sep t) (String sep "") = Some (String.length h).
Proof.
  intros Hsep. induction h as [|c h IH]; intros Hh.
  - change ("" +:+ String sep t) with (String sep t). simpl.
    destruct (ascii_dec sep sep) as [_ | Hne]; [| congruence].
    now rewrite prefix_nil.
  - simpl in Hh. apply andb_true_iff in Hh as [Hc Hh].
    change (String c h +:+ String sep t) with (String c (h +:+ String sep t)).
    simpl. rewrite (IH Hh).
    destruct (ascii_dec sep c) as [<- | Hne]; [congruence | reflexivity].
Qed.

Lemma first_colon (h t : string) :
  all_bytes name_byte h = true ->
  strings.Index (h +:+ String ":" t) ":" = Some (String.length h).
Proof. now apply (first_byte name_byte ":"). Qed.

Lemma all_digits_port (p : string) : url.all_digits p = port p.
Proof. induction p as [|c p IH]; [reflexivity |]. simpl. now rewrite IH. Qed.

Lemma letter_is_no_star (c : ascii) (s : string) :
  letter c = true -> String.eqb (String c s) "*" = false.
Proof. intros Hc. each_byte c Hc; reflexivity. Qed.

(** What the library makes of [name:port] when the name begins with a
    letter: the name is the scheme, in lower case, and the port is opaque
    text; there is no host. *)
Lemma Parse_name_port (c : ascii) (h p : string) :
  letter c = true -> host_name (String c h) = true -> port p = true ->
  url.Parse (String c h +:+ ":" +:+ p)
  = inr {| url.Scheme := strings.ToLower (String c h); url.Opaque := p;
           url.User := None; url.Host := ""; url.Path := ""; url.RawPath := "";
           url.ForceQuery := false; url.RawQuery := ""; url.Fragment := "" |}.
Proof.
  intros Hc Hh Hp.
  pose proof (addr_bytes _ p Hh Hp) as Hbytes.
  destruct (no_byte_of addr_byte "#" _ eq_refl Hbytes) as (Hhash & _).
  destruct (no_byte_of digit "?" p eq_refl Hp) as (Hq & _ & Hcount & _).
  destruct (no_byte_of digit "/" p eq_refl Hp) as (_ & _ & _ & Hslash).
  unfold url.Parse, url.split. rewrite Hhash.
  unfold url.parse. rewrite (no_control_byte _ Hbytes).
  simpl in Hh. apply andb_true_iff in Hh as [_ Hh].
  rewrite (getscheme_name_port c h p Hc Hh).
  change (String c h +:+ ":" +:+ p) with (String c (h +:+ ":" +:+ p)).
  rewrite (letter_is_no_star c _ Hc).
  rewrite Hcount, andb_false_r. unfold url.split. rewrite Hq, Hslash.
  reflexivity.
Qed.

(** And when it begins with a digit, [-] or [.]: an error, the colon in
    the first segment of a path. *)
Lemma Parse_number_port (c : ascii) (h p : string) :
  letter c = false -> host_name (String c h) = true -> port p = true ->
  url.Parse (String c h +:+ ":" +:+ p)
  = inl {| url.Op := "parse"; url.ErrorURL := String c h +:+ ":" +:+ p;
           url.Err := url.FirstPathSegmentColon |}.
Proof.
  intros Hc Hh Hp.
  pose proof (addr_bytes _ p Hh Hp) as Hbytes.
  pose proof (first_colon (String c h) p Hh) as Hcolon.
  change (String ":" p) with (":" +:+ p) in Hcolon.
  set (addr := String c h +:+ ":" +:+ p) in *.
  destruct (no_byte_of addr_byte "#" _ eq_refl Hbytes) as (Hhash & _).
  destruct (no_byte_of addr_byte "?" _ eq_refl Hbytes) as (Hq & _ & Hcount & _).
  destruct (no_byte_of addr_byte "/" _ eq_refl Hbytes) as (Hslash & _ & _ & Hpre).
  unfold url.Parse, url.split. rewrite Hhash.
  unfold url.parse. rewrite (no_control_byte _ Hbytes).
  simpl in Hh. apply andb_true_iff in Hh as [Hn Hh].
  assert (Hstar : String.eqb addr "*" = false).
  { subst addr. change (String c h +:+ ":" +:+ p) with (String c (h +:+ ":" +:+ p)).
    destruct c as [[] [] [] [] [] [] [] []];
      try (vm_compute in Hn; discriminate Hn); reflexivity. }
  rewrite Hstar.
  assert (Hscheme : url.getscheme addr = inr ("", addr)).
  { subst addr. change (String c h +:+ ":" +:+ p) with (String c (h +:+ ":" +:+ p)).
    now apply getscheme_no_letter. }
  rewrite Hscheme. clearbody addr.
  rewrite Hcount, andb_false_r. unfold url.split. rewrite Hq, Hpre.
  simpl. rewrite Hcolon, Hslash. reflexivity.
Qed.

(** What the library makes of [http://name:port]: the host [name:port]. *)
Lemma Parse_http_name_port (h p : string) :
  host_name h = true -> port p = true ->
  url.Parse ("http://" +:+ h +:+ ":" +:+ p) = inr (mock.base (h +:+ ":" +:+ p)).
Proof.
  intros Hh Hp.
  pose proof (addr_bytes h p Hh Hp) as Hbytes.
  pose proof (last_colon h p Hp) as Hlast.
  pose proof (drop_app_length h (":" +:+ p)) as Hdrop.
  set (addr := h +:+ ":" +:+ p) in *.
  destruct (no_byte_of addr_byte "#" _ eq_refl Hbytes) as (Hhash & _).
  destruct (no_byte_of addr_byte "?" _ eq_refl Hbytes) as (Hq & _ & Hcount & _).
  destruct (no_byte_of addr_byte "/" _ eq_refl Hbytes) as (Hslash & _).
  destruct (no_byte_of addr_byte "@" _ eq_refl Hbytes) as (_ & Hat & _).
  destruct (no_byte_of addr_byte "[" _ eq_refl Hbytes) as (_ & _ & _ & Hbracket).
  destruct (host_unescaped _ Hbytes) as [Hun _].
  change ("http://" +:+ addr)
    with (String "h" (String "t" (String "t" (String "p" (String ":"
            (String "/" (String "/" addr))))))).
  unfold url.Parse, url.split. simpl strings.Index. rewrite Hhash. simpl.
  unfold url.parse. simpl url.stringContainsCTLByte.
  rewrite (no_control_byte _ Hbytes). simpl.
  rewrite Hcount. simpl. rewrite andb_false_r. simpl.
  unfold url.split. simpl strings.Index. rewrite Hq. simpl. rewrite Hslash. simpl.
  unfold url.parseAuthority. rewrite Hat.
  unfold url.parseHost. rewrite Hbracket, Hlast, Hdrop.
  change (":" +:+ p) with (String ":" p). simpl url.validOptionalPort.
  rewrite all_digits_port, Hp. simpl. rewrite Hun.
  unfold strings.HasPrefix. rewrite prefix_nil. reflexivity.
Qed.

Lemma String_base (s : string) :
  all_bytes addr_byte s = true -> s <> "" ->
  url.String (mock.base s) = "http://" +:+ s.
Proof.
  intros Hbytes Hne. destruct (host_unescaped _ Hbytes) as [_ Hesc].
  unfold url.String, mock.base, url.EscapedPath, url.nonempty, url.has_user. simpl.
  apply String.eqb_neq in Hne. rewrite Hne. simpl. rewrite Hesc.
  change ("" +:+ s) with s. now rewrite append_nil_r.
Qed.

Lemma again_name_port (h p : string) :
  host_name h = true -> port p = true -> strings.ToLower h <> "file" ->
  saveProfiles_again (url.Parse (h +:+ ":" +:+ p)) = true.
Proof.
  intros Hh Hp Hfile. destruct h as [|c h]; [discriminate |].
  destruct (letter c) eqn:Hc.
  - rewrite (Parse_name_port c h p Hc Hh Hp).
    apply String.eqb_neq in Hfile. unfold saveProfiles_again.
    cbn [url.Host url.Scheme]. rewrite Hfile. reflexivity.
  - now rewrite (Parse_number_port c h p Hc Hh Hp).
Qed.

Lemma base_name_port (h p : string) :
  host_name h = true -> port p = true -> strings.ToLower h <> "file" ->
  saveProfiles_base url.Parse (h +:+ ":" +:+ p) = Some (mock.base (h +:+ ":" +:+ p)).
Proof.
  intros Hh Hp Hfile. unfold saveProfiles_base, saveProfiles_parsed.
  rewrite (again_name_port h p Hh Hp Hfile), (Parse_http_name_port h p Hh Hp).
  destruct h as [|c h]; [discriminate | reflexivity].
Qed.

Lemma file_begins_with_a_letter (c : ascii) (h : string) :
  strings.ToLower (String c h) = "file" -> letter c = true.
Proof.
  simpl. intros [= Hc _].
  destruct c as [[] [] [] [] [] [] [] []];
    try (vm_compute in Hc; discriminate Hc); reflexivity.
Qed.

Variable net : nat -> string -> Z -> string + http.Response.
Variable create_err : string -> option string.
Variable write_fault : string -> option (nat * string).

(** X18. An address [name:port], of a host name or an address in dotted
    digits and a port in digits, whose name is not [file], is parsed
    twice, as it is and with [http://] before it, and resolves to
    [http://name:port]: the GETs of both batches are those of the
    endpoints under that URL. *)
Theorem name_port_resolves_to_http (h p pathPrefix : string) (duration : Z)
        (names : list string) (w : World) :
  host_name h = true ->
  port p = true ->
  strings.ToLower h <> "file" ->
  let addr := h +:+ ":" +:+ p in
  parses (trace (saveProfiles url.Parse url.String net create_err write_fault
                   addr pathPrefix duration names) w)
  = [addr; "http://" +:+ addr]
  /\ gets (trace (saveProfiles url.Parse url.String net create_err write_fault
                    addr pathPrefix duration names) w)
     = map (fun name =>
              (("http://" +:+ addr) +:+ "/debug/pprof/" +:+ name +:+ "?duration="
               +:+ Itoa (time.int (time.Seconds duration)),
               saveDebug_timeout duration)) names
  /\ gets (trace (saveMetrics url.Parse url.String net create_err write_fault
                    addr pathPrefix duration names) w)
     = map (fun name => (("http://" +:+ addr) +:+ "/" +:+ name,
                         saveDebug_timeout duration)) names.
Proof.
  intros Hh Hp Hfile addr.
  pose proof (again_name_port h p Hh Hp Hfile) as Hagain.
  pose proof (base_name_port h p Hh Hp Hfile) as Hbase.
  assert (Hbase' : saveMetrics_base url.Parse (h +:+ ":" +:+ p)
                   = Some (mock.base (h +:+ ":" +:+ p))) by exact Hbase.
  assert (Hstr : url.String (mock.base addr) = "http://" +:+ addr).
  { apply String_base; [now apply addr_bytes |].
    subst addr. destruct h; [discriminate | discriminate]. }
  fold addr in Hagain, Hbase, Hbase'.
  rewrite saveProfiles_parses, saveProfiles_gets, saveMetrics_gets.
  rewrite Hagain, Hbase, Hbase', Hstr. repeat split; reflexivity.
Qed.

(** X19. A host that is named [file], in any case of the letters, cannot
    be addressed as [file:port]: the library takes the name for the
    scheme, the test of line 50 leaves the scheme [file] alone, and both
    batches give the address up after a single parse, with no GET. *)
Theorem host_named_file_is_refused (h p pathPrefix : string) (duration : Z)
        (names : list string) (w : World) :
  host_name h = true ->
  port p = true ->
  strings.ToLower h = "file" ->
  let addr := h +:+ ":" +:+ p in
  (parses (trace (saveProfiles url.Parse url.String net create_err write_fault
                    addr pathPrefix duration names) w) = [addr]
   /\ gets (trace (saveProfiles url.Parse url.String net create_err write_fault
                     addr pathPrefix duration names) w) = []
   /\ final (saveProfiles url.Parse url.String net create_err write_fault
               addr pathPrefix duration names) w = w)
  /\ (parses (trace (saveMetrics url.Parse url.String net create_err write_fault
                       addr pathPrefix duration names) w) = [addr]
      /\ gets (trace (saveMetrics url.Parse url.String net create_err write_fault
                        addr pathPrefix duration names) w) = []
      /\ final (saveMetrics url.Parse url.String net create_err write_fault
                  addr pathPrefix duration names) w = w).
Proof.
  intros Hh Hp Hfile addr.
  destruct h as [|c h]; [discriminate |].
  pose proof (file_begins_with_a_letter c h Hfile) as Hc.
  pose proof (Parse_name_port c h p Hc Hh Hp) as Hparse.
  rewrite Hfile in Hparse. fold addr in Hparse.
  assert (Hagain : saveProfiles_again (url.Parse addr) = false)
    by now rewrite Hparse.
  assert (Hbase : saveProfiles_base url.Parse addr = None).
  { unfold saveProfiles_base, saveProfiles_parsed. now rewrite Hagain, Hparse. }
  assert (Hbase' : saveMetrics_base url.Parse addr = None) by exact Hbase.
  assert (Hagain' : saveMetrics_again (url.Parse addr) = false) by exact Hagain.
  rewrite saveProfiles_parses, saveProfiles_gets, saveProfiles_final.
  rewrite saveMetrics_parses, saveMetrics_gets, saveMetrics_final.
  rewrite Hagain, Hagain', Hbase, Hbase'. repeat split; reflexivity.
Qed.

End HostPort.

(** ** Witnesses of the cases above *)

Lemma saveDebug_network_error_witness :
  let source := "http://localhost:8080/debug/pprof/trace?duration=5" in
  mock.server 0 source (saveDebug_timeout (5 * time.Second))
  = inl "context deadline exceeded"
  /\ result (mock.saveDebug source "/tmp/dbg-trace.gz" (5 * time.Second)) empty_world
     = Some "http fetch: context deadline exceeded".
Proof.
  intros source. split; [reflexivity |].
  exact (proj1 (saveDebug_network_error mock.server mock.disk mock.sound source
                  "/tmp/dbg-trace.gz" (5 * time.Second) empty_world
                  "context deadline exceeded" eq_refl)).
Defined.

Lemma saveDebug_create_error_witness :
  let source := "http://localhost:8080/debug/pprof/heap?duration=5" in
  let resp := mock.plain 200 "200 OK" "heap-profile-bytes" in
  mock.server 0 source (saveDebug_timeout (5 * time.Second)) = inr resp
  /\ http.StatusCode resp = http.StatusOK
  /\ mock.read_only "/tmp/dbg-heap.gz" = Some "permission denied"
  /\ result (saveDebug mock.server mock.read_only mock.sound source
               "/tmp/dbg-heap.gz" (5 * time.Second)) empty_world
     = Some "error while creating dump file: permission denied".
Proof.
  intros source resp.
  split; [reflexivity |]. split; [reflexivity |]. split; [reflexivity |].
  exact (proj1 (saveDebug_create_error mock.server mock.read_only mock.sound source
                  "/tmp/dbg-heap.gz" (5 * time.Second) empty_world resp
                  "permission denied" eq_refl eq_refl eq_refl)).
Defined.

Lemma saveDebug_write_failure_witness :
  let source := "http://localhost:8080/debug/pprof/heap?duration=5" in
  let resp := mock.plain 200 "200 OK" "heap-profile-bytes" in
  mock.server 0 source (saveDebug_timeout (5 * time.Second)) = inr resp
  /\ http.StatusCode resp = http.StatusOK
  /\ mock.disk "/tmp/dbg-heap.gz" = None
  /\ mock.full "/tmp/dbg-heap.gz" = Some (4%nat, "no space left on device")
  /\ (4 < String.length (http.data (http.body resp)))%nat
  /\ result (saveDebug mock.server mock.disk mock.full source
               "/tmp/dbg-heap.gz" (5 * time.Second)) empty_world
     = Some "no space left on device"
  /\ files (final (saveDebug mock.server mock.disk mock.full source
                     "/tmp/dbg-heap.gz" (5 * time.Second)) empty_world)
       !! "/tmp/dbg-heap.gz"
     = Some "heap".
Proof.
  intros source resp.
  assert (Hlen : (4 < String.length (http.data (http.body resp)))%nat)
    by (vm_compute; lia).
  split; [reflexivity |]. split; [reflexivity |]. split; [reflexivity |].
  split; [reflexivity |]. split; [exact Hlen |].
  exact (saveDebug_write_failure mock.server mock.disk mock.full source
           "/tmp/dbg-heap.gz" (5 * time.Second) empty_world resp 4
           "no space left on device" eq_refl eq_refl eq_refl eq_refl Hlen).
Defined.

Lemma saveDebug_read_failure_witness :
  let source := "http://localhost:8080/debug/pprof/heap?duration=5" in
  exists resp,
    mock.cut_off 0 source (saveDebug_timeout (5 * time.Second)) = inr resp
    /\ http.StatusCode resp = http.StatusOK
    /\ http.read_err (http.body resp) = Some "unexpected EOF"
    /\ result (saveDebug mock.cut_off mock.disk mock.sound source
                 "/tmp/dbg-heap.gz" (5 * time.Second)) empty_world
       = Some "unexpected EOF"
    /\ files (final (saveDebug mock.cut_off mock.disk mock.sound source
                       "/tmp/dbg-heap.gz" (5 * time.Second)) empty_world)
         !! "/tmp/dbg-heap.gz"
       = Some "heap-pro".
Proof.
  intros source. eexists.
  split; [reflexivity |]. split; [reflexivity |]. split; [reflexivity |].
  exact (saveDebug_read_failure mock.cut_off mock.disk mock.sound source
           "/tmp/dbg-heap.gz" (5 * time.Second) empty_world _
           "unexpected EOF" eq_refl eq_refl eq_refl eq_refl eq_refl).
Defined.

Lemma saveDebug_touches_only_its_file_witness :
  "/tmp/dbg-heap.gz" <> "/tmp/dbg-goroutine.gz"
  /\ files (final (mock.saveDebug "http://localhost:8080/debug/pprof/goroutine"
                     "/tmp/dbg-goroutine.gz" 0)
              (with_files empty_world (<["/tmp/dbg-heap.gz" := "old"]> ∅)))
       !! "/tmp/dbg-heap.gz"
     = Some "old".
Proof.
  assert (Hne : "/tmp/dbg-heap.gz" <> "/tmp/dbg-goroutine.gz") by discriminate.
  split; [exact Hne |].
  rewrite (saveDebug_touches_only_its_file mock.server mock.disk mock.sound
             "http://localhost:8080/debug/pprof/goroutine" "/tmp/dbg-goroutine.gz" 0
             (with_files empty_world (<["/tmp/dbg-heap.gz" := "old"]> ∅))
             "/tmp/dbg-heap.gz" Hne).
  reflexivity.
Defined.

Lemma fetchURL_body_witness :
  let source := "http://localhost:8080/debug/pprof/goroutine?duration=5" in
  let resp := mock.pprof_failure 500 "500 Internal Server Error" "out of memory" in
  mock.server 0 source 9500000000 = inr resp
  /\ http.StatusCode resp <> http.StatusOK
  /\ trace (fetchURL mock.server source 9500000000) empty_world
     = [http_Get source 9500000000; ioutil_ReadAll 0; Body_Close 0].
Proof.
  intros source resp.
  assert (Hcode : http.StatusCode resp <> http.StatusOK) by discriminate.
  split; [reflexivity |]. split; [exact Hcode |].
  exact (proj1 (proj2 (fetchURL_body mock.server source 9500000000 empty_world resp
                         eq_refl) Hcode)).
Defined.


Lemma batch_touches_only_its_files_witness :
  (forall name, name ∈ metricTypes -> "/tmp/dbg-" +:+ name +:+ ".gz" <> "/tmp/dbg-heap.gz")
  /\ files (final (mock.saveMetrics "localhost:8080" "/tmp/dbg-" 0 metricTypes)
              (with_files empty_world (<["/tmp/dbg-heap.gz" := "old"]> ∅)))
       !! "/tmp/dbg-heap.gz"
     = Some "old".
Proof.
  assert (Hother : forall name, name ∈ metricTypes ->
                                "/tmp/dbg-" +:+ name +:+ ".gz" <> "/tmp/dbg-heap.gz").
  { intros name Hin Heq.
    change "/tmp/dbg-heap.gz" with ("/tmp/dbg-" +:+ "heap" +:+ ".gz") in Heq.
    apply path_inj in Heq. subst name.
    unfold metricTypes in Hin.
    repeat (apply elem_of_cons in Hin as [Hin | Hin]; [discriminate Hin |]).
    now apply elem_of_nil in Hin. }
  split; [exact Hother |].
  rewrite (proj2 (batch_touches_only_its_files url.Parse url.String mock.server
                    mock.disk mock.sound "localhost:8080" "/tmp/dbg-" 0 metricTypes
                    (with_files empty_world (<["/tmp/dbg-heap.gz" := "old"]> ∅))
                    "/tmp/dbg-heap.gz" Hother)).
  reflexivity.
Defined.



Lemma address_with_host_is_used_as_is_witness :
  url.Parse "http://localhost:8080" = inr (mock.base "localhost:8080")
  /\ url.Host (mock.base "localhost:8080") <> ""
  /\ parses (trace (mock.saveMetrics "http://localhost:8080" "/tmp/dbg-" 0 ["health"])
               empty_world)
     = ["http://localhost:8080"]
  /\ map fst (gets (trace (mock.saveMetrics "http://localhost:8080" "/tmp/dbg-" 0
                             ["health"]) empty_world))
     = ["http://localhost:8080/health"].
Proof.
  assert (Hhost : url.Host (mock.base "localhost:8080") <> "") by discriminate.
  split; [reflexivity |]. split; [exact Hhost |].
  exact (proj2 (address_with_host_is_used_as_is
                  url.Parse url.String mock.server mock.disk mock.sound
                  "http://localhost:8080" "/tmp/dbg-" 0 ["health"] empty_world
                  (mock.base "localhost:8080") eq_refl Hhost)).
Defined.

Lemma hostless_address_is_refused_witness :
  exists u,
    url.Parse "file:///var/run/dgraph.sock" = inr u
    /\ url.Host u = ""
    /\ url.Scheme u = "file"
    /\ trace (mock.saveProfiles "file:///var/run/dgraph.sock" "/tmp/dbg-" 0
                pprofProfileTypes) empty_world
       = [url_Parse "file:///var/run/dgraph.sock";
          glog ERROR "error while parsing address %s: %s"
            [AString "file:///var/run/dgraph.sock"; AParseError None]].
Proof.
  eexists. split; [reflexivity |]. split; [reflexivity |]. split; [reflexivity |].
  exact (proj1 (proj1 (hostless_address_is_refused
                         url.Parse url.String mock.server mock.disk mock.sound
                         "file:///var/run/dgraph.sock" "/tmp/dbg-" 0
                         pprofProfileTypes empty_world _
                         eq_refl eq_refl (or_intror eq_refl)))).
Defined.

Lemma timeout_past_range_is_negative_witness :
  (0 <= time.MaxInt64 <= time.MaxInt64)%Z
  /\ (time.MaxInt64 < time.MaxInt64 + time.MaxInt64 / 2 + 2 * time.Second)%Z
  /\ gets (trace (mock.saveDebug "http://localhost:8080/health" "/tmp/dbg-health.gz"
                    time.MaxInt64) empty_world)
     = [("http://localhost:8080/health", (-4611686016427387906)%Z)].
Proof.
  assert (H0 : (0 <= time.MaxInt64 <= time.MaxInt64)%Z)
    by (split; vm_compute; discriminate).
  assert (H1 : (time.MaxInt64 < time.MaxInt64 + time.MaxInt64 / 2 + 2 * time.Second)%Z)
    by (vm_compute; reflexivity).
  split; [exact H0 |]. split; [exact H1 |].
  exact (proj1 (timeout_past_range_is_negative mock.server mock.disk mock.sound
                  "http://localhost:8080/health" "/tmp/dbg-health.gz"
                  time.MaxInt64 empty_world H0 H1)).
Defined.

Lemma name_port_resolves_to_http_witness :
  address.host_name "127.0.0.1" = true
  /\ address.port "8080" = true
  /\ strings.ToLower "127.0.0.1" <> "file"
  /\ gets (trace (mock.saveMetrics "127.0.0.1:8080" "/tmp/dbg-" 0 metricTypes)
             empty_world)
     = [("http://127.0.0.1:8080/jemalloc", 2000000000%Z);
        ("http://127.0.0.1:8080/state", 2000000000%Z);
        ("http://127.0.0.1:8080/health", 2000000000%Z)].
Proof.
  assert (Hfile : strings.ToLower "127.0.0.1" <> "file") by discriminate.
  split; [reflexivity |]. split; [reflexivity |]. split; [exact Hfile |].
  exact (proj2 (proj2 (name_port_resolves_to_http mock.server mock.disk mock.sound
                         "127.0.0.1" "8080" "/tmp/dbg-" 0 metricTypes empty_world
                         eq_refl eq_refl Hfile))).
Defined.

Lemma host_named_file_is_refused_witness :
  address.host_name "File" = true
  /\ address.port "8080" = true
  /\ strings.ToLower "File" = "file"
  /\ gets (trace (mock.saveProfiles "File:8080" "/tmp/dbg-" 0 pprofProfileTypes)
             empty_world) = [].
Proof.
  split; [reflexivity |]. split; [reflexivity |]. split; [reflexivity |].
  exact (proj1 (proj2 (proj1 (host_named_file_is_refused
                                mock.server mock.disk mock.sound
                                "File" "8080" "/tmp/dbg-" 0 pprofProfileTypes
                                empty_world eq_refl eq_refl eq_refl)))).
Defined.
